(** * DesignerWidgetMixin: a shallow embedding of src/DesignerWidgetMixin.ts

    The mixin turns an ordinary Dojo widget into one that can live in the
    visual designer.  Its methods read and write JavaScript objects, so the
    embedding works over an explicit object store: every object (a
    configuration, a node's [properties], a persisted [widget]) lives at a
    location of a heap, values refer to objects by location, and the methods
    are programs of a small state-and-exception monad that threads the
    instance, the heap and the list of calls made to the collaborators
    (event, measurement service, resize service, editor callbacks). *)

From Stdlib Require Import ZArith String Ascii List DecimalString Lia.
From stdpp Require Import base option list gmap strings.

Local Open Scope string_scope.

(** ** Values and the object store *)

Definition loc := positive.

(** Function values that can reach the mixin: a callback handed in by the
    editor, or the instance's own [_onMouseUp] method. *)
Inductive func :=
| FExternal (n : nat)
| FOnMouseUp.

(** The values of the language that the mixin meets.  Numbers are the
    integers (ids and keys); objects are referred to by location. *)
Inductive val :=
| VUndefined
| VNull
| VBool (b : bool)
| VNum (n : Z)
| VStr (s : string)
| VRef (l : loc)
| VFun (f : func).

Global Instance func_eq_dec : EqDecision func.
Proof. solve_decision. Defined.

Global Instance val_eq_dec : EqDecision val.
Proof. solve_decision. Defined.

(** The strict equality [a === b] on the values above. *)
Definition strict_eq (a b : val) : bool := bool_decide (a = b).

(** An object is its own enumerable fields; the heap maps locations to
    objects.  A location outside the heap's domain reads as an object
    with no fields. *)
Definition heap_obj (h : gmap loc (gmap string val)) (l : loc) : gmap string val :=
  default ∅ (h !! l).

Definition fresh_loc (h : gmap loc (gmap string val)) : loc :=
  fresh (dom h : gset loc).

(** The only failure the mixin can produce by itself. *)
Inductive error := TypeError.

(** How an evaluation ends: normally with a value, or abruptly. *)
Inductive completion (A : Type) :=
| Ok (a : A)
| Throw (e : error).
Arguments Ok {A} a.
Arguments Throw {A} e.

Definition rbind {A B} (r : completion A) (k : A -> completion B) : completion B :=
  match r with
  | Ok a => k a
  | Throw e => Throw e
  end.

(** [ToBoolean] of the language. *)
Definition to_boolean (v : val) : bool :=
  match v with
  | VUndefined | VNull => false
  | VBool b => b
  | VNum n => negb (n =? 0)%Z
  | VStr s => negb (String.eqb s "")
  | VRef _ | VFun _ => true
  end.

(** [v.name]: a [TypeError] on [undefined] and [null], the field (or
    [undefined]) on an object.  None of the names the mixin reads (widget,
    properties, value, id, widgetName, key) exists on the prototypes of
    primitives or functions, so there the read gives [undefined]. *)
Definition get_prop (h : gmap loc (gmap string val)) (v : val) (name : string) : completion val :=
  match v with
  | VUndefined | VNull => Throw TypeError
  | VRef l => Ok (default VUndefined (heap_obj h l !! name))
  | VBool _ | VNum _ | VStr _ | VFun _ => Ok VUndefined
  end.

(** The fields of [this.properties] picked by a destructuring pattern. *)
Definition field (o : gmap string val) (name : string) : val :=
  default VUndefined (o !! name).

Definition string_of_Z (n : Z) : string := NilZero.string_of_int (Z.to_int n).

Definition string_of_nat (n : nat) : string := NilZero.string_of_uint (Nat.to_uint n).

(** The indexed characters a string contributes when it is spread. *)
Fixpoint string_fields (i : nat) (s : string) : gmap string val :=
  match s with
  | EmptyString => ∅
  | String c rest =>
      <[string_of_nat i := VStr (String c EmptyString)]> (string_fields (S i) rest)
  end.

(** [...v] inside an object literal: the own fields of an object, the
    indexed characters of a string, nothing for the other values. *)
Definition spread (h : gmap loc (gmap string val)) (v : val) : gmap string val :=
  match v with
  | VRef l => heap_obj h l
  | VStr s => string_fields 0 s
  | _ => ∅
  end.

(** [{...a, ...b}] : the fields of [b] win. *)
Definition overridden_by (a b : gmap string val) : gmap string val := b ∪ a.
Infix "<+" := overridden_by (at level 51, left associativity).

(** ** Nodes, the instance and the collaborators *)

(** The function handed to [v('span', ...)] by [_renderTriggerResizeNode]:
    a closure over the four variables it mentions. *)
Inductive deferred :=
| TriggerResize (widget activeWidgetId onFocus : val) (key : string).

Inductive ctor :=
| Overlay
| UserWidget (n : nat).

(** A [DNode]: a virtual DOM node, a widget node, [null] or [undefined].
    Both kinds of node hold a reference to their [properties] object; the
    mixin never looks at a node's own children. *)
Inductive dnode :=
| DNull
| DUndefined
| VNode (tag : string) (props : loc) (deferredPropertiesCallback : option deferred)
| WNode (widgetConstructor : ctor) (props : loc).

(** What [render] hands to [afterRender]: [DNode | DNode[]]. *)
Inductive rendered :=
| Single (node : dnode)
| Sequence (nodes : list dnode).

(** The calls the mixin makes to its collaborators, in the order made. *)
Inductive call :=
| StopImmediatePropagation (event : nat)
| DimensionsGet (key : val)
| ResizeGet (key : val)
| Invoke (f : func) (payload : gmap string val).

Global Instance call_eq_dec : EqDecision call.
Proof. solve_decision. Defined.

(** What the mixin imports and cannot see: the class name exported by
    [styles/base.m.css], the geometry the measurement service reports for
    a key, and the text the engine prints for a function. *)
Record Env := {
  css_emptyContainer : string;
  measure : val -> val;
  fun_source : func -> string
}.

(** The instance: its private key, the children and resolved properties
    the engine gave it, and the three hooks a widget may override. *)
Record Designable := {
  _key : string;
  children : list dnode;
  properties : gmap string val;
  isContainer : bool;
  needOverlay : bool;
  getDefaultValue : string
}.

Record state := {
  this : Designable;
  heap : gmap loc (gmap string val);
  calls : list call
}.

Definition _triggerResizeWidgetKey : string := "__triggerResize__".

(** The state [s] after the further calls [cs], with the heap [h], and
    with [key] as the instance's [_key]. *)
Definition with_calls (s : state) (cs : list call) : state :=
  {| this := this s; heap := heap s; calls := calls s ++ cs |}.

Definition with_heap (s : state) (h : gmap loc (gmap string val)) : state :=
  {| this := this s; heap := h; calls := calls s |}.

Definition with_key (s : state) (key : string) : state :=
  {| this := {| _key := key;
                children := children (this s);
                properties := properties (this s);
                isContainer := isContainer (this s);
                needOverlay := needOverlay (this s);
                getDefaultValue := getDefaultValue (this s) |};
     heap := heap s; calls := calls s |}.

(** ** The monad of methods *)

Definition M (A : Type) : Type := state -> completion A * state.

Definition ret {A} (a : A) : M A := fun s => (Ok a, s).

Definition throw {A} (e : error) : M A := fun s => (Throw e, s).

Definition bind {A B} (m : M A) (k : A -> M B) : M B :=
  fun s => match m s with
           | (Ok a, s') => k a s'
           | (Throw e, s') => (Throw e, s')
           end.

Notation "x <~ m ;; k" := (bind m (fun x => k))
  (at level 100, m at next level, right associativity).
Notation "m ;;; k" := (bind m (fun _ => k))
  (at level 100, right associativity).

Definition lift {A} (r : completion A) : M A := fun s => (r, s).

Definition get_this : M Designable := fun s => (Ok (this s), s).

Definition get_heap : M (gmap loc (gmap string val)) := fun s => (Ok (heap s), s).

(** [v.name] against the current heap. *)
Definition read (v : val) (name : string) : M val :=
  fun s => (get_prop (heap s) v name, s).

(** An object literal: a new object at a location not in use. *)
Definition alloc (o : gmap string val) : M loc :=
  fun s => let l := fresh_loc (heap s) in (Ok l, with_heap s (<[l := o]> (heap s))).

(** [o.name = v] on the object at [l]. *)
Definition write (l : loc) (name : string) (v : val) : M unit :=
  fun s => (Ok tt, with_heap s (<[l := <[name := v]> (heap_obj (heap s) l)]> (heap s))).

(** [target.name = v] in strict code: only an object can take it. *)
Definition assign (target : val) (name : string) (v : val) : M unit :=
  match target with
  | VRef l => write l name v
  | _ => throw TypeError
  end.

Definition emit (c : call) : M unit :=
  fun s => (Ok tt, with_calls s [c]).

(** [this._key = key]. *)
Definition set_key (key : string) : M unit :=
  fun s => (Ok tt, with_key s key).

(** [find] of the array shim: the first element the callback accepts. *)
Fixpoint find {A} (callback : A -> M bool) (array : list A) : M (option A) :=
  match array with
  | [] => ret None
  | elm :: rest =>
      b <~ callback elm ;;
      if b then ret (Some elm) else find callback rest
  end.

(** [node.properties]: nodes have one, [null] and [undefined] throw. *)
Definition node_properties (node : dnode) : completion val :=
  match node with
  | DNull | DUndefined => Throw TypeError
  | VNode _ p _ => Ok (VRef p)
  | WNode _ p => Ok (VRef p)
  end.

Section Mixin.

Variable env : Env.

(** The object literal [{ activeWidgetDimensions: dimensions,
    activeWidgetId: id }] given to [onFocus]. *)
Definition focus_payload (dimensions id : val) : gmap string val :=
  <["activeWidgetDimensions" := dimensions]> (<["activeWidgetId" := id]> ∅).

(** [String(v)].  Numbers are the integers, objects are plain objects. *)
Definition to_string (v : val) : string :=
  match v with
  | VUndefined => "undefined"
  | VNull => "null"
  | VBool true => "true"
  | VBool false => "false"
  | VNum n => string_of_Z n
  | VStr s => s
  | VRef _ => "[object Object]"
  | VFun f => fun_source env f
  end.

(** [this.meta(Dimensions).get(key)]. *)
Definition Dimensions_get (key : val) : M val :=
  emit (DimensionsGet key) ;;; ret (measure env key).

(** [this.meta(Resize).get(key, {})]; the mixin drops the answer. *)
Definition Resize_get (key : val) : M unit := emit (ResizeGet key).

(** [f(payload)] where [payload] is an object literal.  An editor callback
    is recorded; the instance's own handler would take the payload for an
    event and fail on its missing [stopImmediatePropagation]; anything else
    is not callable. *)
Definition invoke (f : val) (payload : gmap string val) : M unit :=
  match f with
  | VFun (FExternal n) => emit (Invoke (FExternal n) payload)
  | _ => throw TypeError
  end.

(** [onFocus && onFocus({ activeWidgetDimensions: dimensions,
    activeWidgetId: widget.id })]. *)
Definition onFocus_if_present (onFocus dimensions widget : val) : M unit :=
  if to_boolean onFocus then
    id <~ read widget "id" ;;
    invoke onFocus (focus_payload dimensions id)
  else ret tt.

(** ** The methods *)

Definition _onMouseUp (event : option nat) : M unit :=
  match event with
  | Some ev =>
      emit (StopImmediatePropagation ev) ;;;
      self <~ get_this ;;
      let onFocus := field (properties self) "onFocus" in
      let widget := field (properties self) "widget" in
      dimensions <~ Dimensions_get (VStr (_key self)) ;;
      onFocus_if_present onFocus dimensions widget
  | None => ret tt
  end.

Definition _valuePropertyIsNull (props : val) : M bool :=
  widget <~ read props "widget" ;;
  if to_boolean widget then
    wp <~ read widget "properties" ;;
    if to_boolean wp then
      value <~ read wp "value" ;;
      ret (strict_eq value (VStr ""))
    else ret false
  else ret false.

Definition _onlyContainsCursor : M bool :=
  self <~ get_this ;;
  if (1 <? length (children self))%nat then ret false
  else
    nodeProps <~ lift (node_properties (default DUndefined (children self !! 0%nat))) ;;
    cursorProperties <~ read nodeProps "widget" ;;
    widgetName <~ read cursorProperties "widgetName" ;;
    if strict_eq widgetName (VStr "Cursor") then ret true else ret false.

(** [this.children.length === 0 || this._onlyContainsCursor()] *)
Definition noChildOrOnlyCursor : M bool :=
  self <~ get_this ;;
  if (length (children self) =? 0)%nat then ret true else _onlyContainsCursor.

Definition beforeProperties (props : loc) : M loc :=
  self <~ get_this ;;
  widget <~ read (VRef props) "widget" ;;
  if negb (to_boolean widget) then
    h <~ get_heap ;;
    alloc (spread h (VRef props))
  else
    emptyContainer <~ (if isContainer self then noChildOrOnlyCursor else ret false) ;;
    if emptyContainer then
      extraClasses <~ alloc (<["root" := VStr (css_emptyContainer env)]> ∅) ;;
      persisted <~ read widget "properties" ;;
      h <~ get_heap ;;
      alloc (<["extraClasses" := VRef extraClasses]> ∅
               <+ spread h persisted <+ spread h (VRef props))
    else
      isNull <~ _valuePropertyIsNull (VRef props) ;;
      emptyValue <~ (if isNull then noChildOrOnlyCursor else ret false) ;;
      if emptyValue then
        persisted <~ read widget "properties" ;;
        h <~ get_heap ;;
        alloc (spread h persisted <+ spread h (VRef props)
                 <+ <["value" := VStr (getDefaultValue self)]> ∅)
      else
        persisted <~ read widget "properties" ;;
        h <~ get_heap ;;
        alloc (spread h persisted <+ spread h (VRef props)).

Definition _isFocus (widget activeWidgetId : val) : M bool :=
  id <~ read widget "id" ;;
  ret (strict_eq id activeWidgetId).

Definition _focus (onFocus activeWidgetId : val) (key : string) : M unit :=
  self <~ get_this ;;
  let widget := field (properties self) "widget" in
  dimensions <~ Dimensions_get (VStr key) ;;
  Resize_get (VStr (to_string (VStr key))) ;;;
  onFocus_if_present onFocus dimensions widget.

Definition _tryFocus (widget activeWidgetId onFocus : val) (key : string) : M unit :=
  focused <~ _isFocus widget activeWidgetId ;;
  if focused then _focus onFocus activeWidgetId key else ret tt.

(** Running the deferred-properties function of a node: what the engine
    does when it resolves the node's properties. *)
Definition run_deferred (d : deferred) (inserted : bool) : M (gmap string val) :=
  match d with
  | TriggerResize widget activeWidgetId onFocus key =>
      _tryFocus widget activeWidgetId onFocus key ;;;
      ret (<["key" := VStr _triggerResizeWidgetKey]> ∅)
  end.

(** [v(tag, f)] with a function [f]: a node with empty properties and [f]
    as its deferred-properties callback. *)
Definition v_deferred (tag : string) (f : deferred) : M dnode :=
  p <~ alloc ∅ ;;
  ret (VNode tag p (Some f)).

(** [w(ctor, properties)]: a widget node around the given object. *)
Definition w (c : ctor) (p : loc) : dnode := WNode c p.

Definition _renderTriggerResizeNode (key : string) : M dnode :=
  self <~ get_this ;;
  let widget := field (properties self) "widget" in
  let activeWidgetId := field (properties self) "activeWidgetId" in
  let onFocus := field (properties self) "onFocus" in
  focused <~ _isFocus widget activeWidgetId ;;
  if focused then v_deferred "span" (TriggerResize widget activeWidgetId onFocus key)
  else ret DNull.

(** The callback [afterRender] gives to [find]. *)
Definition has_key (elm : dnode) : M bool :=
  match elm with
  | DNull => ret false
  | _ =>
      p <~ lift (node_properties elm) ;;
      k <~ read p "key" ;;
      ret (negb (strict_eq k VUndefined))
  end.

(** The first half of [afterRender]: the node that carries the key, the
    key as a string, and the output as an array. *)
Definition primary_node (result : rendered) : M (dnode * string * list dnode) :=
  match result with
  | Sequence nodes =>
      node <~ find has_key nodes ;;
      let widgetNode := default DUndefined node in
      p <~ lift (node_properties widgetNode) ;;
      k <~ read p "key" ;;
      ret (widgetNode, to_string k, nodes)
  | Single node =>
      p <~ lift (node_properties node) ;;
      k <~ read p "key" ;;
      ret (node, to_string k, [node])
  end.

Definition afterRender (result : rendered) : M (list dnode) :=
  located <~ primary_node result ;;
  let '(widgetNode, key, result) := located in
  set_key key ;;;
  self <~ get_this ;;
  if needOverlay self then
    dimensions <~ Dimensions_get (VStr key) ;;
    overlayProps <~ alloc (<["dimensions" := dimensions]>
                            (<["onMouseUp" := VFun FOnMouseUp]> ∅)) ;;
    trigger <~ _renderTriggerResizeNode key ;;
    ret (result ++ [w Overlay overlayProps; trigger])%list
  else
    p <~ lift (node_properties widgetNode) ;;
    assign p "onmouseup" (VFun FOnMouseUp) ;;;
    trigger <~ _renderTriggerResizeNode key ;;
    ret (result ++ [trigger])%list.

End Mixin.

(** ** Vocabulary of the statements *)

(** Values on which a property read does not throw. *)
Definition nullish (v : val) : bool :=
  match v with
  | VUndefined | VNull => true
  | _ => false
  end.

(** The editor callbacks among a list of calls. *)
Definition is_invoke (c : call) : bool :=
  match c with
  | Invoke _ _ => true
  | _ => false
  end.

Definition invocations (cs : list call) : list call := List.filter is_invoke cs.

(** A value that, if it refers to an object, refers to one in the heap. *)
Definition allocated (h : gmap loc (gmap string val)) (v : val) : Prop :=
  match v with
  | VRef l => l ∈ (dom h : gset loc)
  | _ => True
  end.

(** The child carries a [widget] in its properties that is neither
    [undefined] nor [null]. *)
Definition has_widget_backref (h : gmap loc (gmap string val)) (child : dnode) : Prop :=
  ∃ p w, node_properties child = Ok p ∧ get_prop h p "widget" = Ok w ∧ nullish w = false.

(** The child is the designer's cursor: the [widgetName] of the [widget]
    in its properties is 'Cursor'. *)
Definition is_cursor (h : gmap loc (gmap string val)) (child : dnode) : Prop :=
  ∃ p w, node_properties child = Ok p ∧ get_prop h p "widget" = Ok w ∧
         get_prop h w "widgetName" = Ok (VStr "Cursor").

(** No children, or the cursor as the only child. *)
Definition visually_empty (h : gmap loc (gmap string val)) (cs : list dnode) : Prop :=
  cs = [] ∨ ∃ child, cs = [child] ∧ is_cursor h child.

(** The style classes of a configuration include the empty-container
    class: its [extraClasses] is an object whose [root] is that class. *)
Definition has_placeholder_class (env : Env) (h : gmap loc (gmap string val))
    (o : gmap string val) : Prop :=
  ∃ ec, o !! "extraClasses" = Some (VRef ec) ∧
        heap_obj h ec !! "root" = Some (VStr (css_emptyContainer env)).

(** The element is a node whose [properties.key] is not [undefined]. *)
Definition defined_key (h : gmap loc (gmap string val)) (node : dnode) : bool :=
  match node with
  | VNode _ p _ | WNode _ p => negb (strict_eq (default VUndefined (heap_obj h p !! "key")) VUndefined)
  | DNull | DUndefined => false
  end.

(** The measurement and resize lookups among a list of calls all use the
    key [k]. *)
Definition lookups_use (k : val) (cs : list call) : Prop :=
  ∀ c, c ∈ cs ->
       match c with
       | DimensionsGet k' | ResizeGet k' => k' = k
       | _ => True
       end.

(** The node is one the focus compensation makes: a [span] whose
    properties are computed by the resize-trigger function. *)
Definition compensation_node (node : dnode) : bool :=
  match node with
  | VNode "span" _ (Some (TriggerResize _ _ _ _)) => true
  | _ => false
  end.


(** ** A small design-time scene used by the examples *)

Module Scene.

Definition env : Env :=
  {| css_emptyContainer := "emptyContainer";
     measure := fun key => VStr ("rect of " ++ match key with VStr k => k | _ => "?" end);
     fun_source := fun _ => "function () { [native code] }" |}.

(** Location 1: an incoming configuration with its own [extraClasses];
    2: the persisted widget, id 42; 3: the author's classes; 4: the
    persisted properties with an empty [value]; 5: the configuration of
    the cursor's node; 6: the cursor widget; 7: an incoming configuration
    without [widget]; 8: an incoming configuration with just the widget;
    9: properties of a rendered node with key 'root'; 10: properties of a
    rendered node without a key. *)
Definition store : gmap loc (gmap string val) :=
  <[1%positive := <["widget" := VRef 2%positive]> (<["extraClasses" := VRef 3%positive]> ∅)]>
  (<[2%positive := <["id" := VNum 42]> (<["properties" := VRef 4%positive]> ∅)]>
  (<[3%positive := <["root" := VStr "mine"]> ∅]>
  (<[4%positive := <["value" := VStr ""]> (<["label" := VStr "Name"]> ∅)]>
  (<[5%positive := <["widget" := VRef 6%positive]> ∅]>
  (<[6%positive := <["widgetName" := VStr "Cursor"]> ∅]>
  (<[7%positive := <["label" := VStr "plain"]> ∅]>
  (<[8%positive := <["widget" := VRef 2%positive]> (<["value" := VStr "typed"]> ∅)]>
  (<[9%positive := <["key" := VStr "root"]> ∅]>
  (<[10%positive := ∅]> ∅))))))))).

Definition cursor : dnode := WNode (UserWidget 0) 5%positive.

Definition onFocus : val := VFun (FExternal 0).

(** The resolved configuration of the instance: widget 42, with or
    without the editor's focus. *)
Definition config (active : Z) : gmap string val :=
  <["widget" := VRef 2%positive]>
  (<["activeWidgetId" := VNum active]>
  (<["onFocus" := onFocus]> ∅)).

Definition instance (container overlay : bool) (cs : list dnode) (active : Z) : Designable :=
  {| _key := ""; children := cs; properties := config active;
     isContainer := container; needOverlay := overlay; getDefaultValue := "__" |}.

Definition start (container overlay : bool) (cs : list dnode) (active : Z) : state :=
  {| this := instance container overlay cs active; heap := store; calls := [] |}.

End Scene.

(** ** Further vocabulary: outcomes of the resolver and of the render *)

(** The children rule out the empty look: two or more of them, or a
    single node whose [widget] has a [widgetName] other than 'Cursor'. *)
Definition populated (h : gmap loc (gmap string val)) (cs : list dnode) : Prop :=
  (2 ≤ length cs)%nat ∨
  ∃ child p cw n, cs = [child] ∧ node_properties child = Ok p ∧
                  get_prop h p "widget" = Ok cw ∧
                  get_prop h cw "widgetName" = Ok n ∧ n ≠ VStr "Cursor".

(** The persisted [widget.properties.value] of a configuration is the
    empty string. *)
Definition empty_value (h : gmap loc (gmap string val)) (incoming : gmap string val) : Prop :=
  ∃ wp, get_prop h (field incoming "widget") "properties" = Ok wp ∧
        get_prop h wp "value" = Ok (VStr "").

(** [s'] is [s] with new objects only: the instance, the record of calls
    and every object of [s] are as they were. *)
Definition only_allocates (s s' : state) : Prop :=
  this s' = this s ∧ calls s' = calls s ∧
  ∀ l, l ∈ (dom (heap s) : gset loc) -> heap s' !! l = heap s !! l.

(** An element the search for the primary node steps over: [null], or a
    node without a defined key. *)
Definition stepped_over (h : gmap loc (gmap string val)) (node : dnode) : bool :=
  match node with
  | DNull => true
  | DUndefined => false
  | VNode _ _ _ | WNode _ _ => negb (defined_key h node)
  end.

(** The output has no node to attach to: a lone [null] or [undefined], or
    a sequence without an element that has a defined key. *)
Definition no_primary (h : gmap loc (gmap string val)) (result : rendered) : Prop :=
  match result with
  | Single node => node = DNull ∨ node = DUndefined
  | Sequence nodes => ∀ node, node ∈ nodes -> defined_key h node = false
  end.

(** The calls that reach the editor or the event. *)
Definition is_lookup (c : call) : bool :=
  match c with
  | DimensionsGet _ | ResizeGet _ => true
  | _ => false
  end.

(** ** A second scene: a widget with a value, and stray children *)

Module Gallery.

(** Location 11: a persisted widget, id 'w7', whose properties are at 12
    and hold the value 'hello'; 13: an incoming configuration for it; 14:
    an incoming configuration whose [widget] is [null]; 15: the
    properties of a rendered node with the numeric key 7; 16: a persisted
    widget without an id; 17: the properties of a child that is an
    ordinary widget, named 'Button', at 18. *)
Definition store : gmap loc (gmap string val) :=
  <[11%positive := <["id" := VStr "w7"]> (<["properties" := VRef 12%positive]> ∅)]>
  (<[12%positive := <["value" := VStr "hello"]> ∅]>
  (<[13%positive := <["widget" := VRef 11%positive]> (<["label" := VStr "Greeting"]> ∅)]>
  (<[14%positive := <["widget" := VNull]> (<["label" := VStr "loose"]> ∅)]>
  (<[15%positive := <["key" := VNum 7]> ∅]>
  (<[16%positive := <["properties" := VRef 12%positive]> ∅]>
  (<[17%positive := <["widget" := VRef 18%positive]> ∅]>
  (<[18%positive := <["widgetName" := VStr "Button"]> ∅]> Scene.store))))))).

(** A child that carries no [widget]: a plain rendered node. *)
Definition stray : dnode := VNode "div" 10%positive None.

Definition button : dnode := WNode (UserWidget 1) 17%positive.

Definition instance (container overlay : bool) (cs : list dnode)
    (config : gmap string val) : Designable :=
  {| _key := ""; children := cs; properties := config;
     isContainer := container; needOverlay := overlay; getDefaultValue := "__" |}.

Definition start (container overlay : bool) (cs : list dnode)
    (config : gmap string val) : state :=
  {| this := instance container overlay cs config; heap := store; calls := [] |}.

End Gallery.

(** ** Facts about the store *)

Lemma fresh_loc_fresh (h : gmap loc (gmap string val)) : fresh_loc h ∉ (dom h : gset loc).
Proof. unfold fresh_loc. apply is_fresh. Qed.

Lemma heap_obj_fresh (h : gmap loc (gmap string val)) : heap_obj h (fresh_loc h) = ∅.
Proof.
  unfold heap_obj. pose proof (fresh_loc_fresh h) as Hf.
  apply not_elem_of_dom in Hf. by rewrite Hf.
Qed.

Lemma heap_obj_insert_eq (h : gmap loc (gmap string val)) l o :
  heap_obj (<[l := o]> h) l = o.
Proof. unfold heap_obj. by rewrite lookup_insert_eq. Qed.

Lemma heap_obj_insert_ne (h : gmap loc (gmap string val)) l l' o :
  l ≠ l' -> heap_obj (<[l := o]> h) l' = heap_obj h l'.
Proof. intros Hne. unfold heap_obj. by rewrite lookup_insert_ne. Qed.

Lemma lookup_alloc_old (h : gmap loc (gmap string val)) o l :
  l ∈ (dom h : gset loc) -> <[fresh_loc h := o]> h !! l = h !! l.
Proof.
  intros Hl. apply lookup_insert_ne. intros Heq.
  apply (fresh_loc_fresh h). by rewrite Heq.
Qed.

Lemma heap_obj_alloc_old (h : gmap loc (gmap string val)) o l :
  l ∈ (dom h : gset loc) -> heap_obj (<[fresh_loc h := o]> h) l = heap_obj h l.
Proof. intros Hl. unfold heap_obj. by rewrite lookup_alloc_old. Qed.

(** An object with a field is allocated. *)
Lemma heap_obj_field_dom (h : gmap loc (gmap string val)) l name v :
  heap_obj h l !! name = Some v -> l ∈ (dom h : gset loc).
Proof.
  unfold heap_obj. intros H. apply elem_of_dom.
  destruct (h !! l); [eauto | simpl in H; by rewrite lookup_empty in H].
Qed.

(** Allocating an empty object changes what no location reads as. *)
Lemma heap_obj_alloc_empty (h : gmap loc (gmap string val)) l :
  heap_obj (<[fresh_loc h := ∅]> h) l = heap_obj h l.
Proof.
  destruct (decide (fresh_loc h = l)) as [<- | Hne].
  - by rewrite heap_obj_insert_eq, heap_obj_fresh.
  - by apply heap_obj_insert_ne.
Qed.

Lemma get_prop_alloc_empty (h : gmap loc (gmap string val)) v name :
  get_prop (<[fresh_loc h := ∅]> h) v name = get_prop h v name.
Proof. destruct v; simpl; try done. by rewrite heap_obj_alloc_empty. Qed.

(** A read that finds a string found an object. *)
Lemma get_prop_defined_ref h v name x :
  get_prop h v name = Ok x -> x ≠ VUndefined ->
  ∃ l, v = VRef l ∧ heap_obj h l !! name = Some x.
Proof.
  destruct v; simpl; intros [= <-] Hx; try done.
  exists l. split; [done |].
  destruct (heap_obj h l !! name); simpl in *; [done | by destruct Hx].
Qed.

Lemma get_prop_total h v name :
  nullish v = false -> ∃ x, get_prop h v name = Ok x.
Proof. destruct v; simpl; intros; try done; eauto. Qed.

Lemma get_prop_throws h v name :
  nullish v = true -> get_prop h v name = Throw TypeError.
Proof. by destruct v. Qed.

Lemma to_boolean_not_nullish v : to_boolean v = true -> nullish v = false.
Proof. by destruct v. Qed.

(** ** The property resolver: [beforeProperties] *)

(** C8.  When the incoming configuration has no [widget] field, the
    resolver returns a new object with exactly the fields of the incoming
    configuration, whatever [isContainer()], the children and the rest of
    the instance are; it touches no existing object, leaves the instance
    as it was and calls no collaborator. *)
Theorem beforeProperties_without_widget (env : Env) (s : state) (props : loc) :
  heap_obj (heap s) props !! "widget" = None ->
  ∃ l s',
    beforeProperties env props s = (Ok l, s') ∧
    (l ∉ (dom (heap s) : gset loc)) ∧
    heap_obj (heap s') l = heap_obj (heap s) props ∧
    (∀ name, heap_obj (heap s') l !! name = heap_obj (heap s) props !! name) ∧
    (∀ l0, l0 ∈ (dom (heap s) : gset loc) -> heap s' !! l0 = heap s !! l0) ∧
    this s' = this s ∧ calls s' = calls s.
Proof.
  intros Hw. eexists _, _.
  split.
  { unfold beforeProperties, bind, get_this, read, get_heap, alloc. simpl.
    rewrite Hw. simpl. reflexivity. }
  simpl. split; [apply fresh_loc_fresh |].
  split; [apply heap_obj_insert_eq |].
  split; [intros name; by rewrite heap_obj_insert_eq |].
  split; [intros l0 Hl0; by apply lookup_alloc_old | done].
Qed.

Lemma spread_alloc_old (h : gmap loc (gmap string val)) o v :
  allocated h v -> spread (<[fresh_loc h := o]> h) v = spread h v.
Proof. destruct v; simpl; try done. apply heap_obj_alloc_old. Qed.

Lemma get_prop_alloc_old (h : gmap loc (gmap string val)) o v name :
  allocated h v -> get_prop (<[fresh_loc h := o]> h) v name = get_prop h v name.
Proof. destruct v; simpl; try done. intros Hl. by rewrite heap_obj_alloc_old. Qed.

(** A new object without a field [name] changes no read of [name]. *)
Lemma get_prop_alloc_nofield (h : gmap loc (gmap string val)) o v name :
  o !! name = None ->
  get_prop (<[fresh_loc h := o]> h) v name = get_prop h v name.
Proof.
  intros Ho. destruct v; simpl; try done.
  destruct (decide (fresh_loc h = l)) as [<- | Hne].
  - by rewrite heap_obj_insert_eq, heap_obj_fresh, Ho, lookup_empty.
  - by rewrite heap_obj_insert_ne.
Qed.

(** ** The cursor test *)

Lemma _onlyContainsCursor_state (s : state) : snd (_onlyContainsCursor s) = s.
Proof.
  unfold _onlyContainsCursor, bind, get_this, lift, read, ret. simpl.
  destruct (1 <? length (children (this s)))%nat; [done |].
  destruct (node_properties _) as [p |]; [| done]. simpl.
  destruct (get_prop (heap s) p "widget") as [cw |]; [| done]. simpl.
  destruct (get_prop (heap s) cw "widgetName") as [n |]; [| done]. simpl.
  by destruct (strict_eq n (VStr "Cursor")).
Qed.

Lemma _onlyContainsCursor_one (s : state) (child : dnode) :
  children (this s) = [child] ->
  fst (_onlyContainsCursor s) =
    rbind (node_properties child) (fun p =>
    rbind (get_prop (heap s) p "widget") (fun cw =>
    rbind (get_prop (heap s) cw "widgetName") (fun n =>
    Ok (strict_eq n (VStr "Cursor"))))).
Proof.
  intros Hc.
  unfold _onlyContainsCursor, bind, get_this, lift, read, ret. simpl.
  rewrite Hc. simpl.
  destruct (node_properties child) as [p |]; [| done]. simpl.
  destruct (get_prop (heap s) p "widget") as [cw |]; [| done]. simpl.
  destruct (get_prop (heap s) cw "widgetName") as [n |]; [| done]. simpl.
  by destruct (strict_eq n (VStr "Cursor")).
Qed.

Lemma noChildOrOnlyCursor_state (s : state) : snd (noChildOrOnlyCursor s) = s.
Proof.
  unfold noChildOrOnlyCursor, bind, get_this, ret. simpl.
  destruct (length (children (this s)) =? 0)%nat; [done |].
  apply _onlyContainsCursor_state.
Qed.

Lemma noChildOrOnlyCursor_visually_empty (s : state) :
  visually_empty (heap s) (children (this s)) ->
  noChildOrOnlyCursor s = (Ok true, s).
Proof.
  intros [Hnil | (child & Hc & p & cw & Hp & Hcw & Hname)].
  - unfold noChildOrOnlyCursor, bind, get_this, ret. simpl. by rewrite Hnil.
  - pose proof (_onlyContainsCursor_one s child Hc) as Hfst.
    pose proof (_onlyContainsCursor_state s) as Hsnd.
    rewrite Hp in Hfst. simpl in Hfst. rewrite Hcw in Hfst. simpl in Hfst.
    rewrite Hname in Hfst. simpl in Hfst.
    unfold noChildOrOnlyCursor, bind, get_this. simpl. rewrite Hc. simpl.
    destruct (_onlyContainsCursor s) as [r s']. simpl in *. by subst.
Qed.

(** C10.  With exactly one child, [_onlyContainsCursor] reads
    [children[0].properties.widget.widgetName] with no guard: it returns
    normally exactly when the child is a node whose properties carry a
    [widget] that is neither [undefined] nor [null], and throws a
    [TypeError] otherwise; when it returns, the answer is [true] exactly
    when that [widgetName] is the string 'Cursor', and this answer is the
    whole "no child or only the cursor" test of the resolver.  The state is
    never changed. *)
Theorem _onlyContainsCursor_single_child (s : state) (child : dnode) :
  children (this s) = [child] ->
  snd (_onlyContainsCursor s) = s ∧
  ((∃ b, fst (_onlyContainsCursor s) = Ok b) ↔ has_widget_backref (heap s) child) ∧
  (fst (_onlyContainsCursor s) = Throw TypeError ↔ ¬ has_widget_backref (heap s) child) ∧
  (∀ p cw, node_properties child = Ok p -> get_prop (heap s) p "widget" = Ok cw ->
           nullish cw = false ->
           ∃ n, get_prop (heap s) cw "widgetName" = Ok n ∧
                fst (_onlyContainsCursor s) = Ok (bool_decide (n = VStr "Cursor"))) ∧
  (fst (_onlyContainsCursor s) = Ok true ↔ is_cursor (heap s) child) ∧
  noChildOrOnlyCursor s = _onlyContainsCursor s.
Proof.
  intros Hc. pose proof (_onlyContainsCursor_one s child Hc) as Hfst.
  assert (Hcases :
    (has_widget_backref (heap s) child ∧ ∃ b, fst (_onlyContainsCursor s) = Ok b) ∨
    (¬ has_widget_backref (heap s) child ∧ fst (_onlyContainsCursor s) = Throw TypeError)).
  { rewrite Hfst. destruct (node_properties child) as [p | []] eqn:Hp; simpl.
    - destruct (get_prop (heap s) p "widget") as [cw | []] eqn:Hcw; simpl.
      + destruct (nullish cw) eqn:Hn.
        * right. split.
          -- intros (p' & cw' & Hp' & Hcw' & Hn'). congruence.
          -- by rewrite get_prop_throws.
        * left. split; [by exists p, cw |].
          destruct (get_prop_total (heap s) cw "widgetName" Hn) as [n ->]. simpl. eauto.
      + right. split; [| done]. intros (p' & cw' & Hp' & Hcw' & Hn'). congruence.
    - right. split; [| done]. intros (p' & cw' & Hp' & _). congruence. }
  split; [apply _onlyContainsCursor_state |].
  split.
  { destruct Hcases as [[Hb He] | [Hb He]]; split; try done.
    intros [b Hb']. congruence. }
  split.
  { destruct Hcases as [[Hb [b He]] | [Hb He]]; split; try done. congruence. }
  split.
  { intros p cw Hp Hcw Hn.
    destruct (get_prop_total (heap s) cw "widgetName" Hn) as [n Hname].
    exists n. split; [done |].
    rewrite Hfst, Hp. simpl. rewrite Hcw. simpl. by rewrite Hname. }
  split.
  { rewrite Hfst. split.
    - destruct (node_properties child) as [p |] eqn:Hp; [| done]. simpl.
      destruct (get_prop (heap s) p "widget") as [cw |] eqn:Hcw; [| done]. simpl.
      destruct (get_prop (heap s) cw "widgetName") as [n |] eqn:Hname; [| done]. simpl.
      intros [= Heq]. apply bool_decide_eq_true in Heq. subst n. by exists p, cw.
    - intros (p & cw & Hp & Hcw & Hname). rewrite Hp. simpl. rewrite Hcw. simpl.
      by rewrite Hname. }
  unfold noChildOrOnlyCursor, bind, get_this. simpl. by rewrite Hc.
Qed.

Lemma _onlyContainsCursor_single_child_witness :
  let s := Scene.start true false [Scene.cursor] 0 in
  fst (_onlyContainsCursor s) = Ok true ∧ is_cursor (heap s) Scene.cursor.
Proof.
  intros s.
  destruct (_onlyContainsCursor_single_child s Scene.cursor eq_refl)
    as (_ & _ & _ & _ & Hiff & _).
  assert (Hrun : fst (_onlyContainsCursor s) = Ok true) by (vm_compute; reflexivity).
  split; [exact Hrun | by apply Hiff].
Defined.

(** ** The three merges of the resolver *)

(** What [beforeProperties] does once the configuration has a [widget]
    and the instance is an empty container. *)
Lemma beforeProperties_container_run (env : Env) (s : state) (props : loc) (widget : val) :
  heap_obj (heap s) props !! "widget" = Some widget ->
  to_boolean widget = true ->
  isContainer (this s) = true ->
  visually_empty (heap s) (children (this s)) ->
  ∃ persisted,
    get_prop (heap s) widget "properties" = Ok persisted ∧
    let ec := fresh_loc (heap s) in
    let h1 := <[ec := <["root" := VStr (css_emptyContainer env)]> ∅]> (heap s) in
    beforeProperties env props s =
      (Ok (fresh_loc h1),
       {| this := this s;
          heap := <[fresh_loc h1 :=
                      <["extraClasses" := VRef ec]> ∅
                        <+ spread h1 persisted <+ heap_obj (heap s) props]> h1;
          calls := calls s |}).
Proof.
  intros Hw Ht Hc He.
  destruct (get_prop_total (heap s) widget "properties" (to_boolean_not_nullish _ Ht))
    as [persisted Hp].
  exists persisted. split; [done |]. simpl.
  unfold beforeProperties, bind, get_this, read. simpl.
  rewrite Hw. simpl. rewrite Ht. simpl. rewrite Hc.
  rewrite (noChildOrOnlyCursor_visually_empty s He).
  unfold alloc, get_heap. simpl.
  rewrite get_prop_alloc_nofield by done. rewrite Hp. simpl.
  by rewrite (heap_obj_alloc_old _ _ props (heap_obj_field_dom _ _ _ _ Hw)).
Qed.

Lemma overridden_by_lookup_override (a b : gmap string val) name x :
  b !! name = Some x -> (a <+ b) !! name = Some x.
Proof. intros Hb. unfold overridden_by. by apply lookup_union_Some_l. Qed.

Lemma overridden_by_lookup_default (a b : gmap string val) name :
  b !! name = None -> (a <+ b) !! name = a !! name.
Proof. intros Hb. unfold overridden_by. by apply lookup_union_r. Qed.

(** C1, as the code has it.  For a container whose configuration has a
    [widget] and that has no child or only the cursor, the resolver
    returns a new object made of the placeholder class as a default,
    overridden by the persisted [widget.properties], overridden by the
    incoming configuration.  Every incoming field is in the result with
    its incoming value; the result's style classes are the new
    empty-container object when neither the persisted properties nor the
    incoming configuration has an [extraClasses] field, and they are the
    incoming [extraClasses] when the configuration has one.  No existing
    object is changed. *)
Theorem beforeProperties_empty_container
    (env : Env) (s : state) (props : loc) (widget persisted : val) :
  heap_obj (heap s) props !! "widget" = Some widget ->
  to_boolean widget = true ->
  get_prop (heap s) widget "properties" = Ok persisted ->
  allocated (heap s) persisted ->
  isContainer (this s) = true ->
  visually_empty (heap s) (children (this s)) ->
  ∃ l s' ec,
    beforeProperties env props s = (Ok l, s') ∧
    heap_obj (heap s') ec = <["root" := VStr (css_emptyContainer env)]> ∅ ∧
    heap_obj (heap s') l =
      <["extraClasses" := VRef ec]> ∅
        <+ spread (heap s) persisted <+ heap_obj (heap s) props ∧
    (∀ name x, heap_obj (heap s) props !! name = Some x ->
               heap_obj (heap s') l !! name = Some x) ∧
    (heap_obj (heap s) props !! "extraClasses" = None ->
     spread (heap s) persisted !! "extraClasses" = None ->
     has_placeholder_class env (heap s') (heap_obj (heap s') l)) ∧
    (∀ l0, l0 ∈ (dom (heap s) : gset loc) -> heap s' !! l0 = heap s !! l0) ∧
    this s' = this s ∧ calls s' = calls s.
Proof.
  intros Hw Ht Hp Ha Hc He.
  destruct (beforeProperties_container_run env s props widget Hw Ht Hc He)
    as (persisted' & Hp' & Hrun).
  rewrite Hp in Hp'. injection Hp' as <-. simpl in Hrun.
  set (ec := fresh_loc (heap s)) in *.
  set (h1 := <[ec := <["root" := VStr (css_emptyContainer env)]> ∅]> (heap s)) in *.
  assert (Hec : ec ∈ (dom h1 : gset loc)).
  { unfold h1. rewrite dom_insert_L. apply elem_of_union. left. by apply elem_of_singleton. }
  assert (Hobj_ec : ∀ o, heap_obj (<[fresh_loc h1 := o]> h1) ec
                         = <["root" := VStr (css_emptyContainer env)]> ∅).
  { intros o. rewrite heap_obj_alloc_old by done. unfold h1. apply heap_obj_insert_eq. }
  assert (Hspread : spread h1 persisted = spread (heap s) persisted).
  { by apply spread_alloc_old. }
  eexists _, _, ec. split; [exact Hrun |]. simpl.
  rewrite heap_obj_insert_eq, Hspread.
  split; [apply Hobj_ec |].
  split; [done |].
  split. { intros name x Hx. by apply overridden_by_lookup_override. }
  split.
  { intros Hin Hpe. exists ec. split; [| by rewrite Hobj_ec, lookup_insert_eq].
    rewrite overridden_by_lookup_default by done.
    rewrite overridden_by_lookup_default by done.
    by rewrite lookup_insert_eq. }
  split; [| done].
  intros l0 Hl0.
  rewrite lookup_alloc_old.
  - by apply lookup_alloc_old.
  - unfold h1. rewrite dom_insert_L. apply elem_of_union. by right.
Qed.

Lemma beforeProperties_empty_container_witness :
  let s := Scene.start true false [Scene.cursor] 0 in
  ∃ l s', beforeProperties Scene.env 8%positive s = (Ok l, s') ∧
          has_placeholder_class Scene.env (heap s') (heap_obj (heap s') l).
Proof.
  intros s.
  assert (He : visually_empty (heap s) (children (this s))).
  { right. exists Scene.cursor. split; [reflexivity |].
    exists (VRef 5%positive), (VRef 6%positive). repeat split; vm_compute; reflexivity. }
  assert (Ha : allocated (heap s) (VRef 4%positive)).
  { simpl. apply elem_of_dom. eexists. vm_compute. reflexivity. }
  destruct (beforeProperties_empty_container Scene.env s 8%positive
              (VRef 2%positive) (VRef 4%positive)
              ltac:(vm_compute; reflexivity) eq_refl ltac:(vm_compute; reflexivity)
              Ha eq_refl He)
    as (l & s' & ec & Hrun & _ & _ & _ & Hclass & _).
  exists l, s'. split; [exact Hrun |].
  apply Hclass; vm_compute; reflexivity.
Defined.

(** C1, as stated, fails: a container without children whose incoming
    configuration brings its own [extraClasses] gets a resolved
    configuration whose style classes are the incoming ones, without the
    empty-container class. *)
Lemma beforeProperties_incoming_classes_win :
  let s := Scene.start true false [] 0 in
  isContainer (this s) = true ∧ children (this s) = [] ∧
  ∃ l s', beforeProperties Scene.env 1%positive s = (Ok l, s') ∧
          heap_obj (heap s') l !! "extraClasses" = Some (VRef 3%positive) ∧
          heap_obj (heap s') 3%positive !! "root" = Some (VStr "mine") ∧
          ¬ has_placeholder_class Scene.env (heap s') (heap_obj (heap s') l).
Proof.
  intros s. split; [reflexivity |]. split; [reflexivity |].
  eexists _, _. split; [vm_compute; reflexivity |].
  split; [vm_compute; reflexivity |].
  split; [vm_compute; reflexivity |].
  intros (ec & Hec & Hroot).
  vm_compute in Hec. assert (ec = 3%positive) as -> by congruence.
  vm_compute in Hroot. discriminate Hroot.
Qed.

Lemma _valuePropertyIsNull_empty (env : Env) (s : state) (props : loc) (widget wp : val) :
  heap_obj (heap s) props !! "widget" = Some widget ->
  get_prop (heap s) widget "properties" = Ok wp ->
  get_prop (heap s) wp "value" = Ok (VStr "") ->
  to_boolean widget = true ∧ _valuePropertyIsNull (VRef props) s = (Ok true, s).
Proof.
  intros Hw Hwp Hv.
  destruct (get_prop_defined_ref _ _ _ _ Hv) as (lp & -> & _); [done |].
  destruct (get_prop_defined_ref _ _ _ _ Hwp) as (lw & -> & _); [done |].
  split; [done |].
  unfold _valuePropertyIsNull, bind, read, ret. simpl. rewrite Hw. simpl.
  simpl in Hwp. injection Hwp as Hwp. rewrite Hwp. simpl.
  simpl in Hv. injection Hv as Hv. by rewrite Hv.
Qed.

(** C3.  For a widget that is not a container, whose persisted
    [widget.properties.value] is the empty string and that has no child or
    only the cursor, the resolver returns a new object whose [value] is
    [getDefaultValue()], whatever [value] the persisted properties and the
    incoming configuration hold; every other field is the incoming one,
    or else the persisted one.  No existing object is changed: the
    persisted [widget.properties] still has the empty [value]. *)
Theorem beforeProperties_empty_value
    (env : Env) (s : state) (props : loc) (widget wp : val) :
  heap_obj (heap s) props !! "widget" = Some widget ->
  get_prop (heap s) widget "properties" = Ok wp ->
  get_prop (heap s) wp "value" = Ok (VStr "") ->
  isContainer (this s) = false ->
  visually_empty (heap s) (children (this s)) ->
  ∃ l s',
    beforeProperties env props s = (Ok l, s') ∧
    heap_obj (heap s') l !! "value" = Some (VStr (getDefaultValue (this s))) ∧
    heap_obj (heap s') l =
      spread (heap s) wp <+ heap_obj (heap s) props
        <+ <["value" := VStr (getDefaultValue (this s))]> ∅ ∧
    (∀ name, name ≠ "value" ->
             heap_obj (heap s') l !! name
             = (spread (heap s) wp <+ heap_obj (heap s) props) !! name) ∧
    (l ∉ (dom (heap s) : gset loc)) ∧
    (∀ l0, l0 ∈ (dom (heap s) : gset loc) -> heap s' !! l0 = heap s !! l0) ∧
    get_prop (heap s') wp "value" = Ok (VStr "") ∧
    spread (heap s') wp = spread (heap s) wp ∧
    this s' = this s ∧ calls s' = calls s.
Proof.
  intros Hw Hwp Hv Hc He.
  destruct (_valuePropertyIsNull_empty env s props widget wp Hw Hwp Hv) as [Ht Hnull].
  destruct (get_prop_defined_ref _ _ _ _ Hv) as (lp & Hlp & Hfield); [done |].
  assert (Halloc : allocated (heap s) wp).
  { subst wp. simpl. by eapply heap_obj_field_dom. }
  eexists _, _. split.
  { unfold beforeProperties, bind, get_this, read. simpl.
    rewrite Hw. simpl. rewrite Ht. simpl. rewrite Hc. unfold ret at 1.
    rewrite Hnull. rewrite (noChildOrOnlyCursor_visually_empty s He).
    rewrite Hwp. unfold get_heap, alloc. simpl. reflexivity. }
  simpl. rewrite heap_obj_insert_eq.
  split. { apply overridden_by_lookup_override. apply lookup_insert_eq. }
  split; [done |].
  split. { intros name Hn. apply overridden_by_lookup_default. by rewrite lookup_insert_ne. }
  split; [apply fresh_loc_fresh |].
  split. { intros l0 Hl0. by apply lookup_alloc_old. }
  split. { by rewrite get_prop_alloc_old. }
  split; [by apply spread_alloc_old | done].
Qed.

Lemma beforeProperties_empty_value_witness :
  let s := Scene.start false false [] 0 in
  ∃ l s', beforeProperties Scene.env 8%positive s = (Ok l, s') ∧
          heap_obj (heap s') l !! "value" = Some (VStr "__") ∧
          get_prop (heap s') (VRef 4%positive) "value" = Ok (VStr "").
Proof.
  intros s.
  destruct (beforeProperties_empty_value Scene.env s 8%positive
              (VRef 2%positive) (VRef 4%positive)
              ltac:(vm_compute; reflexivity) ltac:(vm_compute; reflexivity)
              ltac:(vm_compute; reflexivity) eq_refl (or_introl eq_refl))
    as (l & s' & Hrun & Hvalue & _ & _ & _ & _ & Hkept & _).
  exists l, s'. auto.
Defined.

(** The last rule of the resolver: a widget that is neither an empty
    container nor an empty value gets the persisted properties overridden
    by the incoming configuration.  Here for a widget that is no container
    and whose persisted [value] is not the empty string: the children are
    not looked at. *)
Lemma beforeProperties_plain (env : Env) (s : state) (props : loc) (widget wp value : val) :
  heap_obj (heap s) props !! "widget" = Some widget ->
  to_boolean widget = true ->
  get_prop (heap s) widget "properties" = Ok wp ->
  (to_boolean wp = true -> get_prop (heap s) wp "value" = Ok value ∧ value ≠ VStr "") ->
  isContainer (this s) = false ->
  beforeProperties env props s
  = (Ok (fresh_loc (heap s)),
     with_heap s (<[fresh_loc (heap s) := spread (heap s) wp <+ heap_obj (heap s) props]>
                    (heap s))).
Proof.
  intros Hw Ht Hwp Hv Hc.
  unfold beforeProperties, bind, get_this, read. simpl.
  rewrite Hw. simpl. rewrite Ht. simpl. rewrite Hc. unfold ret at 1.
  unfold _valuePropertyIsNull, bind, read. simpl. rewrite Hw. simpl. rewrite Ht, Hwp.
  destruct (to_boolean wp) eqn:Htwp.
  - destruct (Hv eq_refl) as [Hval Hne]. rewrite Hval. unfold ret at 1.
    unfold strict_eq. rewrite bool_decide_eq_false_2 by done.
    unfold ret at 1. by rewrite Hwp.
  - unfold ret at 1 2. by rewrite Hwp.
Qed.

(** Where the resolver does consult the cursor test, an only child
    without a [widget] in its properties makes the whole resolver throw. *)
Lemma beforeProperties_container_child_without_widget
    (env : Env) (s : state) (props : loc) (widget : val) (child : dnode) :
  heap_obj (heap s) props !! "widget" = Some widget ->
  to_boolean widget = true ->
  isContainer (this s) = true ->
  children (this s) = [child] ->
  ¬ has_widget_backref (heap s) child ->
  beforeProperties env props s = (Throw TypeError, s).
Proof.
  intros Hw Ht Hc Hch Hno.
  assert (Hthrow : _onlyContainsCursor s = (Throw TypeError, s)).
  { pose proof (_onlyContainsCursor_one s child Hch) as Hfst.
    pose proof (_onlyContainsCursor_state s) as Hsnd.
    destruct (_onlyContainsCursor s) as [r s']. simpl in *. subst s'. f_equal.
    rewrite Hfst. destruct (node_properties child) as [p | []] eqn:Hp; [| done]. simpl.
    destruct (get_prop (heap s) p "widget") as [cw | []] eqn:Hcw; [| done]. simpl.
    destruct (nullish cw) eqn:Hn; [by rewrite get_prop_throws |].
    destruct Hno. by exists p, cw. }
  unfold beforeProperties, bind, get_this, read. simpl.
  rewrite Hw. simpl. rewrite Ht. simpl. rewrite Hc.
  unfold noChildOrOnlyCursor, bind, get_this. simpl. rewrite Hch. simpl.
  by rewrite Hthrow.
Qed.

(** ** The mouse-up handler *)

Lemma with_calls_nil (s : state) : with_calls s [] = s.
Proof. destruct s. unfold with_calls. simpl. by rewrite app_nil_r. Qed.

Lemma with_calls_app (s : state) (cs cs' : list call) :
  with_calls (with_calls s cs) cs' = with_calls s (cs ++ cs').
Proof. unfold with_calls. simpl. by rewrite <- app_assoc. Qed.

Lemma emit_with_calls (c : call) (s : state) : emit c s = (Ok tt, with_calls s [c]).
Proof. reflexivity. Qed.

(** The object handed to [onFocus] has the two fields of the literal and
    no other. *)
Lemma focus_payload_fields (dimensions id : val) :
  focus_payload dimensions id !! "activeWidgetDimensions" = Some dimensions ∧
  focus_payload dimensions id !! "activeWidgetId" = Some id ∧
  ∀ name, name ≠ "activeWidgetDimensions" -> name ≠ "activeWidgetId" ->
          focus_payload dimensions id !! name = None.
Proof.
  unfold focus_payload. split; [apply lookup_insert_eq |].
  split; [by rewrite lookup_insert_ne, lookup_insert_eq |].
  intros name H1 H2. by rewrite !lookup_insert_ne, lookup_empty.
Qed.

(** The guarded call of [onFocus], by cases on the callback and on the
    widget whose id is read. *)
Lemma onFocus_if_present_cases (onFocus dimensions widget : val) (s : state) :
  (to_boolean onFocus = false ∧
   onFocus_if_present onFocus dimensions widget s = (Ok tt, s)) ∨
  (to_boolean onFocus = true ∧ nullish widget = true ∧
   onFocus_if_present onFocus dimensions widget s = (Throw TypeError, s)) ∨
  (to_boolean onFocus = true ∧ nullish widget = false ∧
   (∀ n, onFocus ≠ VFun (FExternal n)) ∧
   onFocus_if_present onFocus dimensions widget s = (Throw TypeError, s)) ∨
  (∃ n id, onFocus = VFun (FExternal n) ∧ get_prop (heap s) widget "id" = Ok id ∧
           onFocus_if_present onFocus dimensions widget s
           = (Ok tt, with_calls s [Invoke (FExternal n) (focus_payload dimensions id)])).
Proof.
  unfold onFocus_if_present.
  destruct (to_boolean onFocus) eqn:Ht; [| by left].
  right. unfold bind, read.
  destruct (nullish widget) eqn:Hn.
  { left. by rewrite get_prop_throws. }
  right. destruct (get_prop_total (heap s) widget "id" Hn) as [id Hid]. rewrite Hid.
  destruct onFocus as [| | | | | | [n |]]; simpl in *;
    try (left; repeat split; try done; intros n' Hn'; discriminate Hn').
  right. by exists n, id.
Qed.

(** With an event, the handler stops it, measures, and hands over to the
    guarded call. *)
Lemma _onMouseUp_run (env : Env) (s : state) (ev : nat) :
  _onMouseUp env (Some ev) s
  = onFocus_if_present (field (properties (this s)) "onFocus")
      (measure env (VStr (_key (this s))))
      (field (properties (this s)) "widget")
      (with_calls s [StopImmediatePropagation ev; DimensionsGet (VStr (_key (this s)))]).
Proof.
  unfold _onMouseUp, Dimensions_get, bind, get_this, ret, emit. simpl.
  by rewrite with_calls_app.
Qed.

(** The guarded call changes nothing but the record of calls, to which it
    adds at most the call of the callback. *)
Lemma onFocus_if_present_calls (onFocus dimensions widget : val) (s : state) :
  ∃ r rest, onFocus_if_present onFocus dimensions widget s = (r, with_calls s rest) ∧
            Forall (fun c => is_invoke c = true) rest.
Proof.
  destruct (onFocus_if_present_cases onFocus dimensions widget s)
    as [[_ Hr] | [(_ & _ & Hr) | [(_ & _ & _ & Hr) | (n & id & _ & _ & Hr)]]];
    rewrite Hr.
  - exists (Ok tt), []. by rewrite with_calls_nil.
  - exists (Throw TypeError), []. by rewrite with_calls_nil.
  - exists (Throw TypeError), []. by rewrite with_calls_nil.
  - eexists _, [_]. split; [reflexivity |]. by repeat constructor.
Qed.

(** C4.  Called without an event, [_onMouseUp] does nothing: the state,
    with its record of calls, is the one it started from.  Called with an
    event, it first stops the event's immediate propagation, then measures
    the node of the recorded key, and after that calls [onFocus] at most
    once; a call it makes is to the configured [onFocus] with an object
    whose [activeWidgetDimensions] is the measured geometry, whose
    [activeWidgetId] is the id of [this.properties.widget], and that has
    no other field; an editor callback is called exactly once; a missing
    [onFocus] is not called.  The heap and the instance are unchanged. *)
Theorem _onMouseUp_spec (env : Env) (s : state) :
  _onMouseUp env None s = (Ok tt, s) ∧
  ∀ ev, ∃ r rest,
    let onFocus := field (properties (this s)) "onFocus" in
    let widget := field (properties (this s)) "widget" in
    let dimensions := measure env (VStr (_key (this s))) in
    _onMouseUp env (Some ev) s
      = (r, with_calls s (StopImmediatePropagation ev
                            :: DimensionsGet (VStr (_key (this s))) :: rest)) ∧
    (length rest ≤ 1)%nat ∧
    (∀ c, c ∈ rest ->
          ∃ f id payload,
            onFocus = VFun f ∧ get_prop (heap s) widget "id" = Ok id ∧
            c = Invoke f payload ∧
            payload !! "activeWidgetDimensions" = Some dimensions ∧
            payload !! "activeWidgetId" = Some id ∧
            ∀ name, name ≠ "activeWidgetDimensions" -> name ≠ "activeWidgetId" ->
                    payload !! name = None) ∧
    (∀ n, onFocus = VFun (FExternal n) -> nullish widget = false ->
          ∃ id payload,
            get_prop (heap s) widget "id" = Ok id ∧ r = Ok tt ∧
            rest = [Invoke (FExternal n) payload] ∧
            payload !! "activeWidgetDimensions" = Some dimensions ∧
            payload !! "activeWidgetId" = Some id ∧
            ∀ name, name ≠ "activeWidgetDimensions" -> name ≠ "activeWidgetId" ->
                    payload !! name = None) ∧
    (to_boolean onFocus = false -> r = Ok tt ∧ rest = []).
Proof.
  split; [reflexivity |].
  intros ev.
  set (s2 := with_calls s [StopImmediatePropagation ev; DimensionsGet (VStr (_key (this s)))]).
  assert (Hrun : _onMouseUp env (Some ev) s
                 = onFocus_if_present (field (properties (this s)) "onFocus")
                     (measure env (VStr (_key (this s))))
                     (field (properties (this s)) "widget") s2).
  { apply _onMouseUp_run. }
  assert (Hs2 : ∀ cs, with_calls s2 cs
                = with_calls s (StopImmediatePropagation ev
                                  :: DimensionsGet (VStr (_key (this s))) :: cs)).
  { intros cs. unfold s2. by rewrite with_calls_app. }
  destruct (onFocus_if_present_cases (field (properties (this s)) "onFocus")
              (measure env (VStr (_key (this s))))
              (field (properties (this s)) "widget") s2)
    as [[Ht Hr] | [(Ht & Hn & Hr) | [(Ht & Hn & Hf & Hr) | (n & id & Hf & Hid & Hr)]]].
  - exists (Ok tt), []. cbv zeta. rewrite Hrun, Hr, <- Hs2, with_calls_nil.
    split; [done |]. split; [simpl; lia |]. split; [by intros c Hc%elem_of_nil |].
    split; [| done]. intros n Hf. rewrite Hf in Ht. discriminate Ht.
  - exists (Throw TypeError), []. cbv zeta. rewrite Hrun, Hr, <- Hs2, with_calls_nil.
    split; [done |]. split; [simpl; lia |]. split; [by intros c Hc%elem_of_nil |].
    split; [| by rewrite Ht]. intros n _ Hn'. congruence.
  - exists (Throw TypeError), []. cbv zeta. rewrite Hrun, Hr, <- Hs2, with_calls_nil.
    split; [done |]. split; [simpl; lia |]. split; [by intros c Hc%elem_of_nil |].
    split; [| by rewrite Ht]. intros n Hf'. by destruct (Hf n).
  - exists (Ok tt), [Invoke (FExternal n) (focus_payload (measure env (VStr (_key (this s)))) id)].
    cbv zeta. rewrite Hrun, Hr, Hs2.
    split; [done |]. split; [simpl; lia |].
    split.
    { intros c Hc%list_elem_of_singleton. subst c.
      exists (FExternal n), id, (focus_payload (measure env (VStr (_key (this s)))) id).
      split; [done |]. split; [done |]. split; [done |]. apply focus_payload_fields. }
    split.
    + intros n' Hf' _. rewrite Hf in Hf'. injection Hf' as <-.
      exists id, (focus_payload (measure env (VStr (_key (this s)))) id).
      split; [done |]. split; [done |]. split; [done |]. apply focus_payload_fields.
    + rewrite Hf. simpl. discriminate.
Qed.

(** ** The render postprocessor: [afterRender] *)

Lemma has_key_run (s : state) (elm : dnode) :
  has_key elm s =
    (match elm with
     | DUndefined => Throw TypeError
     | _ => Ok (defined_key (heap s) elm)
     end, s).
Proof. by destruct elm. Qed.

(** [find] with the key test never changes the state; it stops at the
    first element with a defined key and throws on an [undefined] element
    met before. *)
Lemma find_has_key_state (nodes : list dnode) (s : state) :
  snd (find has_key nodes s) = s.
Proof.
  induction nodes as [| elm rest IH]; [done |].
  simpl. unfold bind. rewrite has_key_run.
  destruct elm; simpl; try done;
    match goal with |- context [if ?b then _ else _] => destruct b end; done.
Qed.

Lemma find_has_key_none (nodes : list dnode) (s : state) :
  (∀ node, node ∈ nodes -> defined_key (heap s) node = false) ->
  fst (find has_key nodes s) = Ok None ∨ fst (find has_key nodes s) = Throw TypeError.
Proof.
  induction nodes as [| elm rest IH]; intros Hall; [by left |].
  simpl. unfold bind. rewrite has_key_run.
  assert (Helm : defined_key (heap s) elm = false) by (apply Hall; left).
  assert (Hrest : ∀ node, node ∈ rest -> defined_key (heap s) node = false).
  { intros node Hin. apply Hall. by right. }
  destruct elm; simpl in *; try (by right); try rewrite Helm; by apply IH.
Qed.

Lemma find_has_key_some (nodes : list dnode) (s : state) (node : dnode) :
  fst (find has_key nodes s) = Ok (Some node) ->
  node ∈ nodes ∧ defined_key (heap s) node = true.
Proof.
  induction nodes as [| elm rest IH]; [done |].
  simpl. unfold bind. rewrite has_key_run.
  destruct elm; simpl; try done.
  - intros H. destruct (IH H). split; [by right | done].
  - destruct (negb _) eqn:Hk; simpl.
    + intros [= <-]. split; [by left | done].
    + intros H. destruct (IH H). split; [by right | done].
  - destruct (negb _) eqn:Hk; simpl.
    + intros [= <-]. split; [by left | done].
    + intros H. destruct (IH H). split; [by right | done].
Qed.

Lemma primary_node_state (env : Env) (result : rendered) (s : state) :
  snd (primary_node env result s) = s.
Proof.
  destruct result as [node | nodes]; simpl; unfold bind, lift, read, ret.
  - destruct (node_properties node) as [p |]; [| done]. simpl.
    by destruct (get_prop (heap s) p "key").
  - pose proof (find_has_key_state nodes s) as Hs.
    destruct (find has_key nodes s) as [[found |] s']; simpl in *; subst; [| done].
    destruct (node_properties _) as [p |]; [| done]. simpl.
    by destruct (get_prop (heap s) p "key").
Qed.

(** What a successful search for the primary node found. *)
Lemma primary_node_found (env : Env) (result : rendered) (s : state)
    (widgetNode : dnode) (key : string) (nodes : list dnode) :
  fst (primary_node env result s) = Ok (widgetNode, key, nodes) ->
  ∃ p k,
    node_properties widgetNode = Ok (VRef p) ∧
    get_prop (heap s) (VRef p) "key" = Ok k ∧
    key = to_string env k ∧
    ((result = Single widgetNode ∧ nodes = [widgetNode]) ∨
     (result = Sequence nodes ∧ widgetNode ∈ nodes ∧ k ≠ VUndefined)).
Proof.
  destruct result as [node | ns]; simpl; unfold bind, lift, read, ret.
  - destruct node as [| | tag p d | c p]; simpl; try done.
    + intros [= <- <- <-]. exists p, (default VUndefined (heap_obj (heap s) p !! "key")).
      repeat split; try done. by left.
    + intros [= <- <- <-]. exists p, (default VUndefined (heap_obj (heap s) p !! "key")).
      repeat split; try done. by left.
  - pose proof (find_has_key_state ns s) as Hs.
    pose proof (find_has_key_some ns s) as Hsome.
    destruct (find has_key ns s) as [[found |] s']; simpl in *; subst; [| done].
    destruct found as [node |]; simpl; [| done].
    destruct (Hsome node eq_refl) as [Hin Hdef].
    destruct node as [| | tag p d | c p]; simpl in *; try done.
    + intros [= <- <- <-]. exists p, (default VUndefined (heap_obj (heap s) p !! "key")).
      repeat split; try done. right. repeat split; try done.
      intros Hk. rewrite Hk in Hdef. done.
    + intros [= <- <- <-]. exists p, (default VUndefined (heap_obj (heap s) p !! "key")).
      repeat split; try done. right. repeat split; try done.
      intros Hk. rewrite Hk in Hdef. done.
Qed.

(** An output sequence without an element that has a defined key makes
    [afterRender] throw, and nothing is recorded. *)
Lemma afterRender_keyless_sequence (env : Env) (nodes : list dnode) (s : state) :
  (∀ node, node ∈ nodes -> defined_key (heap s) node = false) ->
  afterRender env (Sequence nodes) s = (Throw TypeError, s).
Proof.
  intros Hall. unfold afterRender, bind. simpl. unfold bind.
  pose proof (find_has_key_state nodes s) as Hs.
  destruct (find_has_key_none nodes s Hall) as [Hf | Hf];
    destruct (find has_key nodes s) as [r s']; simpl in *; subst; done.
Qed.

(** C2, on the code.  Rendering an empty sequence, or a sequence of one
    element that has no key, does not degrade: [afterRender] throws a
    [TypeError], records no key and returns no output. *)
Theorem afterRender_keyless_throws :
  let s := Scene.start false false [] 42 in
  afterRender Scene.env (Sequence []) s = (Throw TypeError, s) ∧
  afterRender Scene.env (Sequence [VNode "div" 10%positive None]) s = (Throw TypeError, s) ∧
  afterRender Scene.env (Sequence [DNull]) s = (Throw TypeError, s).
Proof. intros s. repeat split; vm_compute; reflexivity. Qed.

(** The three ways [_renderTriggerResizeNode] can go. *)
Lemma _renderTriggerResizeNode_cases (key : string) (s : state) :
  let widget := field (properties (this s)) "widget" in
  let activeWidgetId := field (properties (this s)) "activeWidgetId" in
  let onFocus := field (properties (this s)) "onFocus" in
  (nullish widget = true ∧
   _renderTriggerResizeNode key s = (Throw TypeError, s)) ∨
  (∃ id, get_prop (heap s) widget "id" = Ok id ∧ id ≠ activeWidgetId ∧
         _renderTriggerResizeNode key s = (Ok DNull, s)) ∨
  (get_prop (heap s) widget "id" = Ok activeWidgetId ∧
   _renderTriggerResizeNode key s
   = (Ok (VNode "span" (fresh_loc (heap s))
            (Some (TriggerResize widget activeWidgetId onFocus key))),
      with_heap s (<[fresh_loc (heap s) := ∅]> (heap s)))).
Proof.
  intros widget activeWidgetId onFocus.
  unfold _renderTriggerResizeNode, _isFocus, bind, get_this, read, ret. simpl.
  fold widget activeWidgetId onFocus.
  destruct (nullish widget) eqn:Hn.
  { left. by rewrite get_prop_throws. }
  right. destruct (get_prop_total (heap s) widget "id" Hn) as [id Hid]. rewrite Hid.
  unfold strict_eq. destruct (decide (id = activeWidgetId)) as [-> | Hne].
  - right. split; [done |]. by rewrite bool_decide_eq_true_2.
  - left. exists id. repeat split; try done. by rewrite bool_decide_eq_false_2.
Qed.

(** [afterRender] up to the compensation node, with an overlay. *)
Lemma afterRender_overlay_run (env : Env) (result : rendered) (s : state)
    (widgetNode : dnode) (key : string) (nodes : list dnode) :
  primary_node env result s = (Ok (widgetNode, key, nodes), s) ->
  needOverlay (this s) = true ->
  let ov := fresh_loc (heap s) in
  let s3 := with_heap (with_calls (with_key s key) [DimensionsGet (VStr key)])
              (<[ov := <["dimensions" := measure env (VStr key)]>
                         (<["onMouseUp" := VFun FOnMouseUp]> ∅)]> (heap s)) in
  afterRender env result s =
    bind (_renderTriggerResizeNode key)
         (fun trigger => ret (nodes ++ [w Overlay ov; trigger])%list) s3.
Proof.
  intros Hp Hov. unfold afterRender. unfold bind at 1. rewrite Hp.
  unfold bind at 1. simpl. unfold bind at 1. simpl. rewrite Hov. reflexivity.
Qed.

(** [afterRender] up to the compensation node, without an overlay. *)
Lemma afterRender_plain_run (env : Env) (result : rendered) (s : state)
    (widgetNode : dnode) (key : string) (nodes : list dnode) (p : loc) :
  primary_node env result s = (Ok (widgetNode, key, nodes), s) ->
  node_properties widgetNode = Ok (VRef p) ->
  needOverlay (this s) = false ->
  let s3 := with_heap (with_key s key)
              (<[p := <["onmouseup" := VFun FOnMouseUp]> (heap_obj (heap s) p)]> (heap s)) in
  afterRender env result s =
    bind (_renderTriggerResizeNode key)
         (fun trigger => ret (nodes ++ [trigger])%list) s3.
Proof.
  intros Hp Hn Hov. unfold afterRender. unfold bind at 1. rewrite Hp.
  unfold bind at 1. simpl. unfold bind at 1. simpl. rewrite Hov.
  unfold bind at 1. unfold lift. rewrite Hn. reflexivity.
Qed.




(** Setting one field of an object changes no read of another field. *)
Lemma get_prop_write_other (h : gmap loc (gmap string val)) l name x v name' :
  name ≠ name' ->
  get_prop (<[l := <[name := x]> (heap_obj h l)]> h) v name' = get_prop h v name'.
Proof.
  intros Hne. destruct v as [| | | | | l' |]; simpl; try done.
  destruct (decide (l = l')) as [<- | Hl].
  - by rewrite heap_obj_insert_eq, lookup_insert_ne.
  - by rewrite heap_obj_insert_ne.
Qed.

(** ** The focus compensation *)

Lemma run_deferred_run (env : Env) (widget activeWidgetId onFocus : val) (key : string)
    (inserted : bool) (s : state) (id : val) :
  get_prop (heap s) widget "id" = Ok id ->
  run_deferred env (TriggerResize widget activeWidgetId onFocus key) inserted s =
    if strict_eq id activeWidgetId then
      bind (onFocus_if_present onFocus (measure env (VStr key))
              (field (properties (this s)) "widget"))
           (fun _ => ret (<["key" := VStr _triggerResizeWidgetKey]> ∅))
           (with_calls s [DimensionsGet (VStr key); ResizeGet (VStr key)])
    else (Ok (<["key" := VStr _triggerResizeWidgetKey]> ∅), s).
Proof.
  intros Hid.
  unfold run_deferred, _tryFocus, _isFocus. unfold bind at 1 2 3. unfold read. rewrite Hid.
  unfold ret at 1. destruct (strict_eq id activeWidgetId); [| reflexivity].
  unfold _focus, Dimensions_get, Resize_get, bind, get_this, ret, emit. simpl.
  rewrite !with_calls_app. simpl. reflexivity.
Qed.

(** The deferred function has one normal result. *)
Lemma run_deferred_result (env : Env) (d : deferred) (inserted : bool) (s s' : state)
    (r : gmap string val) :
  run_deferred env d inserted s = (Ok r, s') ->
  r = <["key" := VStr _triggerResizeWidgetKey]> ∅.
Proof.
  destruct d as [widget activeWidgetId onFocus key].
  unfold run_deferred, bind.
  destruct (_tryFocus env widget activeWidgetId onFocus key s) as [[[] |] s1]; [| done].
  unfold ret. by intros [= <- _].
Qed.

(** C7.  When the instance holds the focus, [_renderTriggerResizeNode]
    makes a [span] whose deferred function, run in the render it was made
    in, measures the node of the key, registers with the resize service,
    and then calls an [onFocus] that is an editor callback exactly once,
    with an object whose [activeWidgetDimensions] is the geometry just
    measured, whose [activeWidgetId] is the id of the instance's widget,
    and that has no other field; what the resize service answers plays no
    part.  With no [onFocus] the
    call is left out and nothing is thrown.  In both cases the function
    returns the reserved key. *)
Theorem compensation_refocuses (env : Env) (s : state) (key : string) :
  let widget := field (properties (this s)) "widget" in
  let activeWidgetId := field (properties (this s)) "activeWidgetId" in
  let onFocus := field (properties (this s)) "onFocus" in
  get_prop (heap s) widget "id" = Ok activeWidgetId ->
  ∃ p s1,
    let d := TriggerResize widget activeWidgetId onFocus key in
    let refreshed := measure env (VStr key) in
    _renderTriggerResizeNode key s = (Ok (VNode "span" p (Some d)), s1) ∧
    (∀ n inserted,
       onFocus = VFun (FExternal n) ->
       ∃ payload,
         run_deferred env d inserted s1
         = (Ok (<["key" := VStr "__triggerResize__"]> ∅),
            with_calls s1 [DimensionsGet (VStr key); ResizeGet (VStr key);
                           Invoke (FExternal n) payload]) ∧
         payload !! "activeWidgetDimensions" = Some refreshed ∧
         payload !! "activeWidgetId" = Some activeWidgetId ∧
         get_prop (heap s1) widget "id" = Ok activeWidgetId ∧
         ∀ name, name ≠ "activeWidgetDimensions" -> name ≠ "activeWidgetId" ->
                 payload !! name = None) ∧
    (∀ inserted,
       to_boolean onFocus = false ->
       run_deferred env d inserted s1
       = (Ok (<["key" := VStr "__triggerResize__"]> ∅),
          with_calls s1 [DimensionsGet (VStr key); ResizeGet (VStr key)])).
Proof.
  intros widget activeWidgetId onFocus Hid.
  destruct (_renderTriggerResizeNode_cases key s)
    as [[Hn _] | [(id & Hid' & Hne & _) | [_ Hr]]].
  - fold widget in Hn. rewrite get_prop_throws in Hid by done. discriminate Hid.
  - fold widget in Hid'. fold activeWidgetId in Hne. congruence.
  - fold widget activeWidgetId onFocus in Hr.
    eexists _, _. cbv zeta. split; [exact Hr |].
    set (s1 := with_heap s _).
    assert (Hid1 : get_prop (heap s1) widget "id" = Ok activeWidgetId).
    { unfold s1. simpl. by rewrite get_prop_alloc_empty. }
    assert (Hfocus : strict_eq activeWidgetId activeWidgetId = true).
    { unfold strict_eq. by apply bool_decide_eq_true_2. }
    split.
    + intros n inserted Hf.
      exists (focus_payload (measure env (VStr key)) activeWidgetId).
      split; [| destruct (focus_payload_fields (measure env (VStr key)) activeWidgetId)
                  as (Hd & Ha & Hnone); by repeat split].
      rewrite (run_deferred_run env _ _ _ _ _ _ _ Hid1), Hfocus.
      unfold bind.
      destruct (onFocus_if_present_cases onFocus (measure env (VStr key))
                  (field (properties (this s1)) "widget")
                  (with_calls s1 [DimensionsGet (VStr key); ResizeGet (VStr key)]))
        as [[Ht _] | [(_ & Hn & _) | [(_ & _ & Hnf & _) | (n' & id & Hf' & Hid2 & Hrun)]]].
      * rewrite Hf in Ht. discriminate Ht.
      * change (field (properties (this s1)) "widget") with widget in Hn.
        rewrite get_prop_throws in Hid by done. discriminate Hid.
      * by destruct (Hnf n).
      * rewrite Hrun. unfold ret. rewrite with_calls_app. simpl.
        change (field (properties (this s1)) "widget") with widget in Hid2.
        simpl in Hid2. fold s1 in Hid1. simpl in Hid1.
        assert (id = activeWidgetId) as -> by congruence.
        assert (n' = n) as -> by congruence.
        reflexivity.
    + intros inserted Ht.
      rewrite (run_deferred_run env _ _ _ _ _ _ _ Hid1), Hfocus.
      unfold bind, onFocus_if_present. rewrite Ht. reflexivity.
Qed.

(** C6.  Once the primary node is found and the widget's id can be read:
    when the id is strictly equal to [activeWidgetId], the output ends
    with one compensation node, a [span] with empty properties of its own
    whose deferred function returns the key '__triggerResize__' and
    nothing else, in every state it is run in, and does return in the
    state the render leaves when [onFocus] is missing or an editor
    callback; when the id differs, the output ends with [null] and nothing
    appended to the rendered nodes is a compensation node. *)
Theorem afterRender_compensation_node (env : Env) (result : rendered) (s : state)
    (widgetNode : dnode) (key : string) (nodes : list dnode) (id : val) :
  primary_node env result s = (Ok (widgetNode, key, nodes), s) ->
  get_prop (heap s) (field (properties (this s)) "widget") "id" = Ok id ->
  ∃ out s' front,
    let widget := field (properties (this s)) "widget" in
    let activeWidgetId := field (properties (this s)) "activeWidgetId" in
    let onFocus := field (properties (this s)) "onFocus" in
    afterRender env result s = (Ok out, s') ∧
    Forall (fun node => compensation_node node = false) front ∧
    if strict_eq id activeWidgetId then
      ∃ p,
        let d := TriggerResize widget activeWidgetId onFocus key in
        out = (nodes ++ front ++ [VNode "span" p (Some d)])%list ∧
        last out = Some (VNode "span" p (Some d)) ∧
        compensation_node (VNode "span" p (Some d)) = true ∧
        heap_obj (heap s') p = ∅ ∧
        (∀ inserted s1 r s1',
           run_deferred env d inserted s1 = (Ok r, s1') ->
           r = <["key" := VStr "__triggerResize__"]> ∅) ∧
        ((to_boolean onFocus = false ∨ ∃ n, onFocus = VFun (FExternal n)) ->
         ∀ inserted, ∃ s'',
           run_deferred env d inserted s'
           = (Ok (<["key" := VStr "__triggerResize__"]> ∅), s''))
    else
      out = (nodes ++ front ++ [DNull])%list ∧
      last out = Some DNull ∧
      Forall (fun node => compensation_node node = false) (front ++ [DNull]).
Proof.
  intros Hp Hid.
  destruct (primary_node_found env result s widgetNode key nodes) as (p & k & Hnp & _).
  { by rewrite Hp. }
  (* the state in which the compensation node is made, and what was
     appended before it *)
  assert (Hmid : ∃ s3 front,
    afterRender env result s
    = bind (_renderTriggerResizeNode key)
           (fun trigger => ret (nodes ++ front ++ [trigger])%list) s3 ∧
    Forall (fun node => compensation_node node = false) front ∧
    properties (this s3) = properties (this s) ∧
    get_prop (heap s3) (field (properties (this s)) "widget") "id" = Ok id).
  { destruct (needOverlay (this s)) eqn:Hov.
    - eexists _, [WNode Overlay (fresh_loc (heap s))]. split.
      { apply (afterRender_overlay_run env result s widgetNode key nodes Hp Hov). }
      split; [by repeat constructor |]. split; [done |].
      simpl. by rewrite get_prop_alloc_nofield.
    - eexists _, []. split.
      { apply (afterRender_plain_run env result s widgetNode key nodes p Hp Hnp Hov). }
      split; [constructor |]. split; [done |].
      simpl. by rewrite get_prop_write_other. }
  destruct Hmid as (s3 & front & Hrun & Hfront & Hprops & Hid3).
  destruct (_renderTriggerResizeNode_cases key s3)
    as [[Hn _] | [(id' & Hid' & Hne & Hr) | [Hid' Hr]]];
    rewrite Hprops in *.
  - rewrite get_prop_throws in Hid3 by done. discriminate Hid3.
  - assert (id' = id) as -> by congruence.
    exists (nodes ++ front ++ [DNull])%list, s3, front. cbv zeta.
    split. { rewrite Hrun. unfold bind. by rewrite Hr. }
    split; [done |].
    unfold strict_eq. rewrite bool_decide_eq_false_2 by done.
    split; [done |]. split.
    + by rewrite app_assoc, last_snoc.
    + apply Forall_app. split; [done | by repeat constructor].
  - assert (id = field (properties (this s)) "activeWidgetId") as -> by congruence.
    eexists (nodes ++ front ++ [_])%list, _, front. cbv zeta.
    split. { rewrite Hrun. unfold bind. rewrite Hr. reflexivity. }
    split; [done |].
    unfold strict_eq. rewrite bool_decide_eq_true_2 by done.
    exists (fresh_loc (heap s3)).
    split; [done |].
    split. { by rewrite app_assoc, last_snoc. }
    split; [done |].
    split. { simpl. apply heap_obj_insert_eq. }
    split. { intros inserted s1 r s1' Hd. by apply (run_deferred_result env _ _ _ _ _ Hd). }
    intros Hcb inserted.
    set (s4 := with_heap s3 _).
    assert (Hid4 : get_prop (heap s4) (field (properties (this s)) "widget") "id"
                   = Ok (field (properties (this s)) "activeWidgetId")).
    { unfold s4. simpl. by rewrite get_prop_alloc_empty. }
    rewrite (run_deferred_run env _ _ _ _ _ _ _ Hid4).
    unfold strict_eq. rewrite bool_decide_eq_true_2 by done.
    unfold bind.
    destruct (onFocus_if_present_cases (field (properties (this s)) "onFocus")
                (measure env (VStr key))
                (field (properties (this s4)) "widget")
                (with_calls s4 [DimensionsGet (VStr key); ResizeGet (VStr key)]))
      as [[_ Hok] | [(Ht & Hn & _) | [(Ht & _ & Hnf & _) | (n' & id & _ & _ & Hok)]]].
    + rewrite Hok. eauto.
    + exfalso. change (properties (this s4)) with (properties (this s3)) in Hn.
      rewrite Hprops in Hn.
      rewrite get_prop_throws in Hid3 by done. discriminate Hid3.
    + exfalso. destruct Hcb as [Hf | [n Hf]]; [congruence | by destruct (Hnf n)].
    + rewrite Hok. eauto.
Qed.

(** ** The recorded key *)

Lemma lookups_use_invokes (k : val) (cs : list call) :
  Forall (fun c => is_invoke c = true) cs -> lookups_use k cs.
Proof.
  intros Hall c Hc. rewrite Forall_forall in Hall. specialize (Hall c Hc).
  by destruct c.
Qed.

Lemma lookups_use_app (k : val) (cs cs' : list call) :
  lookups_use k cs -> lookups_use k cs' -> lookups_use k (cs ++ cs').
Proof.
  intros H1 H2 c Hc. apply elem_of_app in Hc. destruct Hc; [by apply H1 | by apply H2].
Qed.

(** Whatever state and arguments the deferred function of a compensation
    node runs with, its lookups use the key it was made with. *)
Lemma run_deferred_lookups (env : Env) (widget activeWidgetId onFocus : val)
    (key : string) (inserted : bool) (s : state) :
  ∃ r cs,
    run_deferred env (TriggerResize widget activeWidgetId onFocus key) inserted s
    = (r, with_calls s cs) ∧
    lookups_use (VStr key) cs.
Proof.
  destruct (nullish widget) eqn:Hn.
  { exists (Throw TypeError), []. rewrite with_calls_nil. split; [| by intros c Hc%elem_of_nil].
    unfold run_deferred, _tryFocus, _isFocus, bind, read. by rewrite get_prop_throws. }
  destruct (get_prop_total (heap s) widget "id" Hn) as [id Hid].
  rewrite (run_deferred_run env _ _ _ _ _ _ _ Hid).
  destruct (strict_eq id activeWidgetId).
  - unfold bind.
    destruct (onFocus_if_present_calls onFocus (measure env (VStr key))
                (field (properties (this s)) "widget")
                (with_calls s [DimensionsGet (VStr key); ResizeGet (VStr key)]))
      as (r & rest & Hr & Hrest).
    rewrite Hr, with_calls_app.
    assert (Hl : lookups_use (VStr key)
                   ([DimensionsGet (VStr key); ResizeGet (VStr key)] ++ rest)).
    { apply lookups_use_app; [| by apply lookups_use_invokes].
      intros c Hc. apply elem_of_cons in Hc as [-> | Hc]; [done |].
      apply list_elem_of_singleton in Hc as ->. done. }
    destruct r as [[] |]; eauto.
  - eexists _, []. rewrite with_calls_nil. split; [done | by intros c Hc%elem_of_nil].
Qed.

(** How [afterRender] ends once the primary node is found: the key is
    recorded even if the compensation step throws, the only lookup is the
    overlay's, and a deferred function among the appended nodes was made
    with the recorded key. *)
Lemma afterRender_outcome (env : Env) (result : rendered) (s : state)
    (widgetNode : dnode) (key : string) (nodes : list dnode) :
  primary_node env result s = (Ok (widgetNode, key, nodes), s) ->
  ∃ r s' cs,
    afterRender env result s = (r, s') ∧
    this s' = this (with_key s key) ∧
    calls s' = (calls s ++ cs)%list ∧
    (cs = [] ∨ cs = [DimensionsGet (VStr key)]) ∧
    (∀ out, r = Ok out ->
       ∃ appended, out = (nodes ++ appended)%list ∧
         ∀ tag p w a f key',
           VNode tag p (Some (TriggerResize w a f key')) ∈ appended -> key' = key).
Proof.
  intros Hp.
  destruct (primary_node_found env result s widgetNode key nodes) as (p & k & Hnp & _).
  { by rewrite Hp. }
  assert (Hmid : ∃ s3 front cs,
    afterRender env result s
    = bind (_renderTriggerResizeNode key)
           (fun trigger => ret (nodes ++ front ++ [trigger])%list) s3 ∧
    this s3 = this (with_key s key) ∧
    calls s3 = (calls s ++ cs)%list ∧
    (cs = [] ∨ cs = [DimensionsGet (VStr key)]) ∧
    (∀ tag p w a f key', VNode tag p (Some (TriggerResize w a f key')) ∈ front -> False)).
  { destruct (needOverlay (this s)) eqn:Hov.
    - eexists _, [WNode Overlay (fresh_loc (heap s))], [DimensionsGet (VStr key)]. split.
      { apply (afterRender_overlay_run env result s widgetNode key nodes Hp Hov). }
      repeat split; try done; [by right |].
      intros tag p' w' a f key' Hin. apply list_elem_of_singleton in Hin. discriminate Hin.
    - eexists _, [], []. split.
      { apply (afterRender_plain_run env result s widgetNode key nodes p Hp Hnp Hov). }
      repeat split; try done; [simpl; by rewrite app_nil_r | by left |].
      intros tag p' w' a f key' Hin. by apply elem_of_nil in Hin. }
  destruct Hmid as (s3 & front & cs & Hrun & Hthis & Hcalls & Hcs & Hfront).
  rewrite Hrun. unfold bind.
  destruct (_renderTriggerResizeNode_cases key s3)
    as [[_ Hr] | [(id' & _ & _ & Hr) | [_ Hr]]]; rewrite Hr.
  - exists (Throw TypeError), s3, cs. repeat split; try done.
  - eexists _, s3, cs. split; [reflexivity |]. repeat split; try done.
    intros out [= <-]. exists (front ++ [DNull])%list. split; [done |].
    intros tag p' w' a f key' Hin. apply elem_of_app in Hin as [Hin | Hin].
    + by destruct (Hfront _ _ _ _ _ _ Hin).
    + apply list_elem_of_singleton in Hin. discriminate Hin.
  - eexists _, _, cs. split; [reflexivity |]. repeat split; try done.
    intros out [= <-]. eexists (front ++ [_])%list. split; [done |].
    intros tag p' w' a f key' Hin. apply elem_of_app in Hin as [Hin | Hin].
    + by destruct (Hfront _ _ _ _ _ _ Hin).
    + apply list_elem_of_singleton in Hin. by injection Hin.
Qed.

(** C9.  Once the primary node is found, [afterRender] leaves in [_key]
    the string [String(key)] of that node's key, also when a later step of
    the render throws: a string key as it is, a number in decimal digits,
    [null] as 'null', a boolean as 'true' or 'false', a plain object as
    '[object Object]', a function as its source text, and an [undefined]
    key as the string 'undefined'.  Every lookup of the measurement and resize services made
    by the render itself, by the mouse-up handler afterwards, and by the
    deferred function of a compensation node the render appended, is made
    with that string. *)
Theorem afterRender_records_string_key (env : Env) (result : rendered) (s : state)
    (widgetNode : dnode) (key : string) (nodes : list dnode) :
  primary_node env result s = (Ok (widgetNode, key, nodes), s) ->
  ∃ p k r s',
    afterRender env result s = (r, s') ∧
    node_properties widgetNode = Ok (VRef p) ∧
    get_prop (heap s) (VRef p) "key" = Ok k ∧
    _key (this s') = to_string env k ∧
    _key (this s') = match k with
                     | VUndefined => "undefined"
                     | VNull => "null"
                     | VBool true => "true"
                     | VBool false => "false"
                     | VNum n => NilZero.string_of_int (Z.to_int n)
                     | VStr str => str
                     | VRef _ => "[object Object]"
                     | VFun f => fun_source env f
                     end ∧
    (k = VUndefined -> _key (this s') = "undefined") ∧
    (∃ cs, calls s' = (calls s ++ cs)%list ∧ lookups_use (VStr (to_string env k)) cs) ∧
    (∀ ev, ∃ r' cs,
       _onMouseUp env (Some ev) s' = (r', with_calls s' cs) ∧
       DimensionsGet (VStr (to_string env k)) ∈ cs ∧
       lookups_use (VStr (to_string env k)) cs) ∧
    (∀ out, r = Ok out ->
       ∃ appended, out = (nodes ++ appended)%list ∧
         ∀ tag p' w a f key',
           VNode tag p' (Some (TriggerResize w a f key')) ∈ appended ->
           key' = to_string env k ∧
           ∀ inserted s1, ∃ r1 cs,
             run_deferred env (TriggerResize w a f key') inserted s1
             = (r1, with_calls s1 cs) ∧
             lookups_use (VStr (to_string env k)) cs).
Proof.
  intros Hp.
  destruct (primary_node_found env result s widgetNode key nodes)
    as (p & k & Hnp & Hk & Hkey & _).
  { by rewrite Hp. }
  destruct (afterRender_outcome env result s widgetNode key nodes Hp)
    as (r & s' & cs & Hrun & Hthis & Hcalls & Hcs & Hout).
  subst key.
  assert (Hrec : _key (this s') = to_string env k) by (by rewrite Hthis).
  exists p, k, r, s'.
  split; [done |]. split; [done |]. split; [done |]. split; [done |].
  split. { rewrite Hrec. by destruct k as [| | [|] | | | |]. }
  split. { intros ->. by rewrite Hrec. }
  split.
  { exists cs. split; [done |]. intros c Hc.
    destruct Hcs as [-> | ->]; [by apply elem_of_nil in Hc |].
    apply list_elem_of_singleton in Hc as ->. done. }
  split.
  { intros ev. rewrite _onMouseUp_run, Hrec.
    destruct (onFocus_if_present_calls (field (properties (this s')) "onFocus")
                (measure env (VStr (to_string env k)))
                (field (properties (this s')) "widget")
                (with_calls s' [StopImmediatePropagation ev;
                                DimensionsGet (VStr (to_string env k))]))
      as (r' & rest & Hr & Hrest).
    rewrite Hr, with_calls_app. eexists _, _. split; [reflexivity |].
    split. { simpl. apply elem_of_cons. right. apply elem_of_cons. by left. }
    apply lookups_use_app; [| by apply lookups_use_invokes].
    intros c Hc. apply elem_of_cons in Hc as [-> | Hc]; [done |].
    apply list_elem_of_singleton in Hc as ->. done. }
  intros out Hr. destruct (Hout out Hr) as (appended & Happ & Hdef).
  exists appended. split; [done |].
  intros tag p' w' a f key' Hin.
  pose proof (Hdef _ _ _ _ _ _ Hin) as ->.
  split; [done |]. intros inserted s1. apply run_deferred_lookups.
Qed.

(** ** The theorems at work on the scene *)

Lemma beforeProperties_without_widget_witness :
  let s := Scene.start true false [] 0 in
  heap_obj (heap s) 7%positive !! "widget" = None ∧
  ∃ l s', beforeProperties Scene.env 7%positive s = (Ok l, s') ∧
          heap_obj (heap s') l = heap_obj (heap s) 7%positive.
Proof.
  intros s.
  assert (Hw : heap_obj (heap s) 7%positive !! "widget" = None)
    by (vm_compute; reflexivity).
  split; [exact Hw |].
  destruct (beforeProperties_without_widget Scene.env s 7%positive Hw)
    as (l & s' & Hrun & _ & Hsame & _).
  by exists l, s'.
Defined.


Lemma afterRender_compensation_node_witness :
  let s := Scene.start false false [] 42 in
  let node := VNode "div" 9%positive None in
  ∃ out s' p d,
    afterRender Scene.env (Single node) s = (Ok out, s') ∧
    last out = Some (VNode "span" p (Some d)) ∧
    ∃ s'', run_deferred Scene.env d true s'
           = (Ok (<["key" := VStr "__triggerResize__"]> ∅), s'').
Proof.
  intros s node.
  destruct (afterRender_compensation_node Scene.env (Single node) s node "root" [node]
              (VNum 42) ltac:(vm_compute; reflexivity) ltac:(vm_compute; reflexivity))
    as (out & s' & front & Hrun & _ & Hcase).
  change (strict_eq (VNum 42) (field (properties (this s)) "activeWidgetId"))
    with true in Hcase.
  destruct Hcase as (p & _ & Hlast & _ & _ & _ & Hret).
  eexists out, s', p, _.
  split; [exact Hrun |]. split; [exact Hlast |].
  apply Hret. right. by exists 0%nat.
Defined.

Lemma compensation_refocuses_witness :
  let s := Scene.start false false [] 42 in
  ∃ p s1 d s2,
    _renderTriggerResizeNode "root" s = (Ok (VNode "span" p (Some d)), s1) ∧
    run_deferred Scene.env d true s1 = (Ok (<["key" := VStr "__triggerResize__"]> ∅), s2) ∧
    ∃ payload,
      invocations (calls s2) = [Invoke (FExternal 0) payload] ∧
      payload !! "activeWidgetDimensions" = Some (VStr "rect of root") ∧
      payload !! "activeWidgetId" = Some (VNum 42).
Proof.
  intros s.
  destruct (compensation_refocuses Scene.env s "root" ltac:(vm_compute; reflexivity))
    as (p & s1 & Hmk & Hcb & _).
  destruct (Hcb 0%nat true eq_refl) as (payload & Hrun & Hdims & Hid & _).
  eexists p, s1, _, _.
  split; [exact Hmk |].
  split; [exact Hrun |].
  assert (Hcalls : calls s1 = []).
  { assert (Hs1 : snd (_renderTriggerResizeNode "root" s) = s1) by (by rewrite Hmk).
    rewrite <- Hs1. vm_compute. reflexivity. }
  exists payload. split; [| split; [exact Hdims | exact Hid]].
  simpl. rewrite Hcalls. reflexivity.
Defined.

Lemma afterRender_records_string_key_witness :
  let keyless := VNode "div" 10%positive None in
  let numbered := VNode "li" 15%positive None in
  let named := VNode "div" 9%positive None in
  (∃ r s', afterRender Scene.env (Single keyless) (Scene.start false false [] 0) = (r, s') ∧
           _key (this s') = "undefined") ∧
  (∃ r s', afterRender Scene.env (Single numbered)
             (Gallery.start false false [] (Scene.config 0)) = (r, s') ∧
           _key (this s') = "7") ∧
  (∃ r s', afterRender Scene.env (Sequence [DNull; named])
             (Scene.start false true [] 42) = (r, s') ∧
           _key (this s') = "root").
Proof.
  intros keyless numbered named. split; [| split].
  - set (s := Scene.start false false [] 0).
    destruct (afterRender_records_string_key Scene.env (Single keyless) s keyless
                "undefined" [keyless] ltac:(vm_compute; reflexivity))
      as (p & k & r & s' & Hrun & Hp & Hk & _ & Hcases & _).
    exists r, s'. split; [exact Hrun |].
    injection Hp as <-.
    assert (Hk' : get_prop (heap s) (VRef 10%positive) "key" = Ok VUndefined)
      by (vm_compute; reflexivity).
    assert (k = VUndefined) as -> by congruence.
    exact Hcases.
  - set (s := Gallery.start false false [] (Scene.config 0)).
    destruct (afterRender_records_string_key Scene.env (Single numbered) s numbered
                "7" [numbered] ltac:(vm_compute; reflexivity))
      as (p & k & r & s' & Hrun & Hp & Hk & _ & Hcases & _).
    exists r, s'. split; [exact Hrun |].
    injection Hp as <-.
    assert (Hk' : get_prop (heap s) (VRef 15%positive) "key" = Ok (VNum 7))
      by (vm_compute; reflexivity).
    assert (k = VNum 7) as -> by congruence.
    exact Hcases.
  - set (s := Scene.start false true [] 42).
    destruct (afterRender_records_string_key Scene.env (Sequence [DNull; named]) s named
                "root" [DNull; named] ltac:(vm_compute; reflexivity))
      as (p & k & r & s' & Hrun & Hp & Hk & _ & Hcases & _).
    exists r, s'. split; [exact Hrun |].
    injection Hp as <-.
    assert (Hk' : get_prop (heap s) (VRef 9%positive) "key" = Ok (VStr "root"))
      by (vm_compute; reflexivity).
    assert (k = VStr "root") as -> by congruence.
    exact Hcases.
Defined.

(** * Beyond the claims: the resolver as a whole *)

(** The value test on a configuration reads, never throws and never
    changes the state. *)
Lemma _valuePropertyIsNull_run (s : state) (props : loc) :
  ∃ b, _valuePropertyIsNull (VRef props) s = (Ok b, s) ∧
       (b = true ↔ empty_value (heap s) (heap_obj (heap s) props)).
Proof.
  unfold _valuePropertyIsNull, bind, read, ret, empty_value, field. simpl.
  set (widget := default VUndefined (heap_obj (heap s) props !! "widget")).
  destruct (to_boolean widget) eqn:Ht.
  - destruct (get_prop_total (heap s) widget "properties" (to_boolean_not_nullish _ Ht))
      as [wp Hwp]. rewrite Hwp.
    destruct (to_boolean wp) eqn:Htw.
    + destruct (get_prop_total (heap s) wp "value" (to_boolean_not_nullish _ Htw))
        as [value Hv]. rewrite Hv.
      eexists. split; [reflexivity |]. unfold strict_eq. rewrite bool_decide_eq_true.
      split.
      * intros ->. by exists wp.
      * intros (wp' & Hwp' & Hv'). congruence.
    + exists false. split; [done |]. split; [done |].
      intros (wp' & Hwp' & Hv'). assert (wp' = wp) as -> by congruence.
      destruct (get_prop_defined_ref _ _ _ _ Hv') as (l & -> & _); done.
  - exists false. split; [done |]. split; [done |].
    intros (wp & Hwp & Hv).
    destruct (get_prop_defined_ref _ _ _ _ Hv) as (l & -> & _); [done |].
    destruct (get_prop_defined_ref _ _ _ _ Hwp) as (lw & Hw & _); [done |].
    rewrite Hw in Ht. done.
Qed.

(** The whole resolver on a configuration with a truthy [widget], by the
    outcome of the value test and of the children test. *)
Lemma beforeProperties_run (env : Env) (s : state) (props : loc) (widget persisted : val)
    (vnull : bool) (r : completion bool) :
  heap_obj (heap s) props !! "widget" = Some widget ->
  to_boolean widget = true ->
  get_prop (heap s) widget "properties" = Ok persisted ->
  _valuePropertyIsNull (VRef props) s = (Ok vnull, s) ->
  noChildOrOnlyCursor s = (r, s) ->
  let h := heap s in
  let plain := (Ok (fresh_loc h),
                with_heap s (<[fresh_loc h := spread h persisted <+ heap_obj h props]> h)) in
  beforeProperties env props s =
    match isContainer (this s) || vnull, r with
    | false, _ => plain
    | true, Throw e => (Throw e, s)
    | true, Ok false => plain
    | true, Ok true =>
        if isContainer (this s) then
          let h1 := <[fresh_loc h := <["root" := VStr (css_emptyContainer env)]> ∅]> h in
          (Ok (fresh_loc h1),
           with_heap s (<[fresh_loc h1 := <["extraClasses" := VRef (fresh_loc h)]> ∅
                                            <+ spread h1 persisted <+ heap_obj h props]> h1))
        else
          (Ok (fresh_loc h),
           with_heap s (<[fresh_loc h := spread h persisted <+ heap_obj h props
                                          <+ <["value" := VStr (getDefaultValue (this s))]> ∅]> h))
    end.
Proof.
  intros Hw Ht Hp Hv Hn. cbv zeta.
  unfold beforeProperties, bind, get_this, read. simpl.
  rewrite Hw. simpl. rewrite Ht. simpl.
  destruct (isContainer (this s)) eqn:Hc; simpl.
  - rewrite Hn. destruct r as [[|] | e]; [| | done].
    + unfold alloc, get_heap. simpl.
      rewrite get_prop_alloc_nofield by done. rewrite Hp. simpl.
      by rewrite (heap_obj_alloc_old _ _ props (heap_obj_field_dom _ _ _ _ Hw)).
    + rewrite Hv. destruct vnull.
      * rewrite Hn, Hp. reflexivity.
      * unfold ret. rewrite Hp. reflexivity.
  - unfold ret. rewrite Hv. destruct vnull.
    + rewrite Hn. destruct r as [[|] | e]; [| | done]; rewrite Hp; reflexivity.
    + rewrite Hp. reflexivity.
Qed.

(** The children test, by the number of children. *)
Lemma noChildOrOnlyCursor_run (s : state) :
  ∃ r, noChildOrOnlyCursor s = (r, s) ∧
       (children (this s) = [] -> r = Ok true) ∧
       ((2 ≤ length (children (this s)))%nat -> r = Ok false) ∧
       (∀ child, children (this s) = [child] ->
          (r = Throw TypeError ↔ ¬ has_widget_backref (heap s) child) ∧
          (r = Ok true ↔ is_cursor (heap s) child)).
Proof.
  pose proof (noChildOrOnlyCursor_state s) as Hs.
  destruct (noChildOrOnlyCursor s) as [r s'] eqn:Hrun. simpl in Hs. subst s'.
  exists r. split; [done |].
  assert (Hfst : fst (noChildOrOnlyCursor s) = r) by (by rewrite Hrun).
  split; [| split].
  - intros Hnil. rewrite <- Hfst.
    unfold noChildOrOnlyCursor, bind, get_this, ret. simpl. by rewrite Hnil.
  - intros Hlen. rewrite <- Hfst.
    destruct (children (this s)) as [| c1 [| c2 rest]] eqn:Hch; simpl in Hlen; try lia.
    unfold noChildOrOnlyCursor, _onlyContainsCursor, bind, get_this, ret. simpl.
    rewrite Hch. simpl. by rewrite Hch.
  - intros child Hc.
    assert (Hone : r = rbind (node_properties child) (fun p =>
                       rbind (get_prop (heap s) p "widget") (fun cw =>
                       rbind (get_prop (heap s) cw "widgetName") (fun n =>
                       Ok (strict_eq n (VStr "Cursor")))))).
    { rewrite <- Hfst, <- (_onlyContainsCursor_one s child Hc).
      unfold noChildOrOnlyCursor, bind, get_this. simpl. by rewrite Hc. }
    rewrite Hone. clear Hone Hfst Hrun. split.
    + destruct (node_properties child) as [p | []] eqn:Hp; simpl.
      * destruct (get_prop (heap s) p "widget") as [cw | []] eqn:Hcw; simpl.
        -- destruct (nullish cw) eqn:Hnl.
           ++ rewrite get_prop_throws by done. simpl. split; [| done].
              intros _ (p' & cw' & Hp' & Hcw' & Hn'). congruence.
           ++ destruct (get_prop_total (heap s) cw "widgetName" Hnl) as [n ->]. simpl.
              split; [done |]. intros Hno. destruct Hno. by exists p, cw.
        -- split; [| done]. intros _ (p' & cw' & Hp' & Hcw' & Hn'). congruence.
      * split; [| done]. intros _ (p' & cw' & Hp' & _). congruence.
    + split.
      * destruct (node_properties child) as [p |] eqn:Hp; [| done]. simpl.
        destruct (get_prop (heap s) p "widget") as [cw |] eqn:Hcw; [| done]. simpl.
        destruct (get_prop (heap s) cw "widgetName") as [n |] eqn:Hname; [| done]. simpl.
        intros [= Heq]. apply bool_decide_eq_true in Heq. subst n. by exists p, cw.
      * intros (p & cw & Hp & Hcw & Hname). rewrite Hp. simpl. rewrite Hcw. simpl.
        by rewrite Hname.
Qed.

Lemma only_allocates_refl (s : state) : only_allocates s s.
Proof. by repeat split. Qed.

Lemma only_allocates_alloc (s : state) (o : gmap string val) :
  only_allocates s (with_heap s (<[fresh_loc (heap s) := o]> (heap s))).
Proof. repeat split; try done. intros l Hl. simpl. by apply lookup_alloc_old. Qed.

Lemma only_allocates_alloc2 (s : state) (o o' : gmap string val) :
  let h1 := <[fresh_loc (heap s) := o]> (heap s) in
  only_allocates s (with_heap s (<[fresh_loc h1 := o']> h1)).
Proof.
  repeat split; try done. intros l Hl. simpl.
  rewrite lookup_alloc_old.
  - by apply lookup_alloc_old.
  - rewrite dom_insert_L. apply elem_of_union. by right.
Qed.

(** A configuration whose [widget] is missing or falsy is copied. *)
Lemma beforeProperties_copy (env : Env) (s : state) (props : loc) :
  to_boolean (field (heap_obj (heap s) props) "widget") = false ->
  beforeProperties env props s
  = (Ok (fresh_loc (heap s)),
     with_heap s (<[fresh_loc (heap s) := heap_obj (heap s) props]> (heap s))).
Proof.
  intros Hf. unfold beforeProperties, bind, get_this, read. simpl.
  unfold field in Hf. rewrite Hf. reflexivity.
Qed.

(** A truthy [widget] is a field of the configuration, and its
    [properties] can be read. *)
Lemma truthy_widget_field (h : gmap loc (gmap string val)) (incoming : gmap string val) :
  to_boolean (field incoming "widget") = true ->
  ∃ widget persisted, incoming !! "widget" = Some widget ∧ to_boolean widget = true ∧
                      get_prop h widget "properties" = Ok persisted.
Proof.
  unfold field. intros Ht. destruct (incoming !! "widget") as [widget |]; [| done].
  simpl in Ht.
  destruct (get_prop_total h widget "properties" (to_boolean_not_nullish _ Ht)) as [p Hp].
  by exists widget, p.
Qed.

(** X1.  The resolver throws in one situation only: the configuration has
    a truthy [widget], the widget is a container or its persisted [value]
    is the empty string, and the only child is not a node with a [widget]
    in its properties ([null], [undefined], or a node without one).  When
    it throws, the state is the one it started from. *)
Theorem beforeProperties_throws_iff (env : Env) (s : state) (props : loc) :
  (fst (beforeProperties env props s) = Throw TypeError ↔
     to_boolean (field (heap_obj (heap s) props) "widget") = true ∧
     (isContainer (this s) = true ∨ empty_value (heap s) (heap_obj (heap s) props)) ∧
     ∃ child, children (this s) = [child] ∧ ¬ has_widget_backref (heap s) child) ∧
  (fst (beforeProperties env props s) = Throw TypeError ->
   snd (beforeProperties env props s) = s).
Proof.
  destruct (to_boolean (field (heap_obj (heap s) props) "widget")) eqn:Ht.
  2:{ rewrite (beforeProperties_copy env s props Ht). simpl.
      split; [| done]. split; [done | by intros [? _]]. }
  destruct (truthy_widget_field (heap s) _ Ht) as (widget & persisted & Hw & Htw & Hp).
  destruct (_valuePropertyIsNull_run s props) as (vnull & Hv & Hvnull).
  destruct (noChildOrOnlyCursor_run s) as (r & Hn & Hnil & Hmany & Hone).
  rewrite (beforeProperties_run env s props widget persisted vnull r Hw Htw Hp Hv Hn).
  assert (Hconsult : isContainer (this s) || vnull = true ↔
            isContainer (this s) = true ∨ empty_value (heap s) (heap_obj (heap s) props)).
  { rewrite orb_true_iff. by rewrite Hvnull. }
  assert (Hthrow : r = Throw TypeError ↔
            ∃ child, children (this s) = [child] ∧ ¬ has_widget_backref (heap s) child).
  { destruct (children (this s)) as [| c1 [| c2 rest]] eqn:Hch.
    - rewrite (Hnil eq_refl). split; [done | by intros (child & Hc & _)].
    - destruct (Hone c1 eq_refl) as [Hthr _]. rewrite Hthr. split.
      + intros Hno. by exists c1.
      + intros (child & [= <-] & Hno). done.
    - rewrite Hmany by (simpl; lia). split; [done | by intros (child & Hc & _)]. }
  cbv zeta.
  destruct (isContainer (this s) || vnull) eqn:Hcv.
  - destruct r as [[|] | []].
    + split.
      * split; [by destruct (isContainer (this s)) |].
        intros (_ & _ & Hex). apply Hthrow in Hex. discriminate Hex.
      * by destruct (isContainer (this s)).
    + simpl. split; [| done]. split; [done |].
      intros (_ & _ & Hex). apply Hthrow in Hex. discriminate Hex.
    + simpl. split; [| done]. split; [| done]. intros _.
      split; [done |]. split; [by apply Hconsult | by apply Hthrow].
  - simpl. split; [| done]. split; [done |].
    intros (_ & Hc & _). apply Hconsult in Hc. discriminate Hc.
Qed.

(** X2.  The resolver is free of side effects: whatever the configuration
    and the instance, and whether it returns or throws, it calls no
    collaborator, leaves the instance as it was, and changes no object
    that existed before; all it does to the store is to add new objects. *)
Theorem beforeProperties_only_allocates (env : Env) (s : state) (props : loc) :
  only_allocates s (snd (beforeProperties env props s)).
Proof.
  destruct (to_boolean (field (heap_obj (heap s) props) "widget")) eqn:Ht.
  2:{ rewrite (beforeProperties_copy env s props Ht). apply only_allocates_alloc. }
  destruct (truthy_widget_field (heap s) _ Ht) as (widget & persisted & Hw & Htw & Hp).
  destruct (_valuePropertyIsNull_run s props) as (vnull & Hv & _).
  destruct (noChildOrOnlyCursor_run s) as (r & Hn & _).
  rewrite (beforeProperties_run env s props widget persisted vnull r Hw Htw Hp Hv Hn).
  cbv zeta.
  destruct (isContainer (this s) || vnull); [| apply only_allocates_alloc].
  destruct r as [[|] | e]; simpl.
  - destruct (isContainer (this s)); simpl.
    + apply only_allocates_alloc2.
    + apply only_allocates_alloc.
  - apply only_allocates_alloc.
  - apply only_allocates_refl.
Qed.

Lemma noChildOrOnlyCursor_populated (s : state) :
  populated (heap s) (children (this s)) -> noChildOrOnlyCursor s = (Ok false, s).
Proof.
  intros Hpop. destruct (noChildOrOnlyCursor_run s) as (r & Hn & _ & Hmany & Hone).
  rewrite Hn. f_equal.
  destruct Hpop as [Hlen | (child & p & cw & n & Hc & Hp & Hcw & Hname & Hne)];
    [by apply Hmany |].
  destruct (Hone child Hc) as [Hthr Htrue].
  destruct r as [[|] | []]; [| done |].
  - destruct (proj1 Htrue eq_refl) as (p' & cw' & Hp' & Hcw' & Hname'). congruence.
  - destruct (proj1 Hthr eq_refl). exists p, cw. repeat split; try done.
    destruct cw; simpl in *; done.
Qed.

(** X3.  Whenever the resolver returns, the result is an object that did
    not exist before, and every field of the incoming configuration other
    than [value] is in it with the incoming value: the incoming [widget],
    [activeWidgetId], [onFocus] and pass-through fields are never dropped
    or replaced. *)
Theorem beforeProperties_keeps_incoming (env : Env) (s s' : state) (props l : loc) :
  beforeProperties env props s = (Ok l, s') ->
  (l ∉ (dom (heap s) : gset loc)) ∧
  ∀ name x, name ≠ "value" ->
            heap_obj (heap s) props !! name = Some x ->
            heap_obj (heap s') l !! name = Some x.
Proof.
  destruct (to_boolean (field (heap_obj (heap s) props) "widget")) eqn:Ht.
  2:{ rewrite (beforeProperties_copy env s props Ht). intros [= <- <-]. simpl.
      split; [apply fresh_loc_fresh |]. intros name x _ Hx. by rewrite heap_obj_insert_eq. }
  destruct (truthy_widget_field (heap s) _ Ht) as (widget & persisted & Hw & Htw & Hp).
  destruct (_valuePropertyIsNull_run s props) as (vnull & Hv & _).
  destruct (noChildOrOnlyCursor_run s) as (r & Hn & _).
  rewrite (beforeProperties_run env s props widget persisted vnull r Hw Htw Hp Hv Hn).
  cbv zeta.
  assert (Hplain : ∀ o, (Ok (fresh_loc (heap s)),
                         with_heap s (<[fresh_loc (heap s) := o <+ heap_obj (heap s) props]>
                                        (heap s))) = (Ok l, s') ->
            (l ∉ (dom (heap s) : gset loc)) ∧
            ∀ name x, name ≠ "value" -> heap_obj (heap s) props !! name = Some x ->
                      heap_obj (heap s') l !! name = Some x).
  { intros o [= <- <-]. simpl. split; [apply fresh_loc_fresh |].
    intros name x _ Hx. rewrite heap_obj_insert_eq. by apply overridden_by_lookup_override. }
  destruct (isContainer (this s) || vnull); [| apply Hplain].
  destruct r as [[|] | e]; [| apply Hplain | done].
  destruct (isContainer (this s)).
  - intros [= <- <-]. simpl. split.
    + intros Hin. apply (fresh_loc_fresh (<[fresh_loc (heap s) :=
                           <["root" := VStr (css_emptyContainer env)]> ∅]> (heap s))).
      rewrite dom_insert_L. apply elem_of_union. by right.
    + intros name x _ Hx. rewrite heap_obj_insert_eq.
      by apply overridden_by_lookup_override.
  - intros [= <- <-]. simpl. split; [apply fresh_loc_fresh |].
    intros name x Hne Hx. rewrite heap_obj_insert_eq.
    rewrite overridden_by_lookup_default by (by rewrite lookup_insert_ne).
    by apply overridden_by_lookup_override.
Qed.

Lemma beforeProperties_keeps_incoming_witness :
  let s := Gallery.start false false [] ∅ in
  ∃ l s', beforeProperties Scene.env 13%positive s = (Ok l, s') ∧
          heap_obj (heap s') l !! "widget" = Some (VRef 11%positive) ∧
          heap_obj (heap s') l !! "label" = Some (VStr "Greeting").
Proof.
  intros s.
  destruct (beforeProperties Scene.env 13%positive s) as [[l |] s'] eqn:Hrun;
    [| vm_compute in Hrun; discriminate Hrun].
  destruct (beforeProperties_keeps_incoming Scene.env s s' 13%positive l Hrun) as [_ Hkeep].
  exists l, s'. split; [reflexivity |].
  split; apply Hkeep; try done; vm_compute; reflexivity.
Defined.

(** X4.  With two or more children, or with one child whose [widget] is
    not the cursor, neither special rule applies, whatever [isContainer()]
    says and whatever the persisted [value] is: the result is the
    persisted properties overridden by the incoming configuration, with
    no placeholder class and no forced [value].  With two or more children
    no child is looked at. *)
Theorem beforeProperties_populated
    (env : Env) (s : state) (props : loc) (widget persisted : val) :
  heap_obj (heap s) props !! "widget" = Some widget ->
  to_boolean widget = true ->
  get_prop (heap s) widget "properties" = Ok persisted ->
  populated (heap s) (children (this s)) ->
  ∃ l s',
    beforeProperties env props s = (Ok l, s') ∧
    heap_obj (heap s') l = spread (heap s) persisted <+ heap_obj (heap s) props ∧
    (heap_obj (heap s) props !! "extraClasses" = None ->
     spread (heap s) persisted !! "extraClasses" = None ->
     heap_obj (heap s') l !! "extraClasses" = None) ∧
    (heap_obj (heap s) props !! "value" = None ->
     heap_obj (heap s') l !! "value" = spread (heap s) persisted !! "value").
Proof.
  intros Hw Ht Hp Hpop.
  destruct (_valuePropertyIsNull_run s props) as (vnull & Hv & _).
  pose proof (noChildOrOnlyCursor_populated s Hpop) as Hn.
  eexists _, _. split.
  { rewrite (beforeProperties_run env s props widget persisted vnull _ Hw Ht Hp Hv Hn).
    cbv zeta. destruct (isContainer (this s) || vnull); reflexivity. }
  simpl. rewrite heap_obj_insert_eq. split; [done |]. split.
  - intros Hi Hpe. by rewrite overridden_by_lookup_default.
  - intros Hi. by rewrite overridden_by_lookup_default.
Qed.

Lemma beforeProperties_populated_witness :
  let s := Scene.start true false [DNull; DUndefined] 0 in
  ∃ l s', beforeProperties Scene.env 8%positive s = (Ok l, s') ∧
          heap_obj (heap s') l !! "extraClasses" = None ∧
          heap_obj (heap s') l !! "value" = Some (VStr "typed").
Proof.
  intros s.
  destruct (beforeProperties_populated Scene.env s 8%positive (VRef 2%positive)
              (VRef 4%positive) ltac:(vm_compute; reflexivity) eq_refl
              ltac:(vm_compute; reflexivity) (or_introl (le_n 2)))
    as (l & s' & Hrun & Hobj & Hclass & _).
  exists l, s'. split; [exact Hrun |].
  split; [apply Hclass; vm_compute; reflexivity |].
  rewrite Hobj. vm_compute. reflexivity.
Defined.

(** X5.  For a widget that is no container and whose persisted [value] is
    not the empty string, the resolver does not look at the children at
    all: whatever they are, also [null], [undefined] or nodes without a
    [widget], it returns the persisted properties overridden by the
    incoming configuration. *)
Theorem beforeProperties_ignores_children
    (env : Env) (s : state) (props : loc) (widget persisted : val) :
  heap_obj (heap s) props !! "widget" = Some widget ->
  to_boolean widget = true ->
  get_prop (heap s) widget "properties" = Ok persisted ->
  isContainer (this s) = false ->
  ¬ empty_value (heap s) (heap_obj (heap s) props) ->
  ∃ l s',
    beforeProperties env props s = (Ok l, s') ∧
    heap_obj (heap s') l = spread (heap s) persisted <+ heap_obj (heap s) props ∧
    only_allocates s s'.
Proof.
  intros Hw Ht Hp Hc Hne.
  destruct (_valuePropertyIsNull_run s props) as (vnull & Hv & Hvnull).
  destruct (noChildOrOnlyCursor_run s) as (r & Hn & _).
  assert (vnull = false) as ->.
  { destruct vnull; [| done]. destruct Hne. by apply Hvnull. }
  eexists _, _. split.
  { rewrite (beforeProperties_run env s props widget persisted false r Hw Ht Hp Hv Hn).
    cbv zeta. rewrite Hc. reflexivity. }
  simpl. rewrite heap_obj_insert_eq. split; [done |]. apply only_allocates_alloc.
Qed.

Lemma beforeProperties_ignores_children_witness :
  let s := Gallery.start false false [DUndefined] ∅ in
  ∃ l s', beforeProperties Scene.env 13%positive s = (Ok l, s') ∧
          heap_obj (heap s') l !! "value" = Some (VStr "hello").
Proof.
  intros s.
  assert (Hne : ¬ empty_value (heap s) (heap_obj (heap s) 13%positive)).
  { intros (wp & Hwp & Hv). vm_compute in Hwp. injection Hwp as <-.
    vm_compute in Hv. discriminate Hv. }
  destruct (beforeProperties_ignores_children Scene.env s 13%positive (VRef 11%positive)
              (VRef 12%positive) ltac:(vm_compute; reflexivity) eq_refl
              ltac:(vm_compute; reflexivity) eq_refl Hne)
    as (l & s' & Hrun & Hobj & _).
  exists l, s'. split; [exact Hrun |]. rewrite Hobj. vm_compute. reflexivity.
Defined.



(** X7.  The container rule comes first: for a container that has no child
    or only the cursor and whose persisted [value] is the empty string,
    the [value] is not forced to [getDefaultValue()]; the result's [value]
    is the incoming one, or else the persisted empty string. *)
Theorem beforeProperties_container_before_value
    (env : Env) (s : state) (props : loc) (widget persisted : val) :
  heap_obj (heap s) props !! "widget" = Some widget ->
  get_prop (heap s) widget "properties" = Ok persisted ->
  get_prop (heap s) persisted "value" = Ok (VStr "") ->
  isContainer (this s) = true ->
  visually_empty (heap s) (children (this s)) ->
  ∃ l s',
    beforeProperties env props s = (Ok l, s') ∧
    heap_obj (heap s') l !! "value"
    = Some (default (VStr "") (heap_obj (heap s) props !! "value")).
Proof.
  intros Hw Hp Hv Hc He.
  destruct (_valuePropertyIsNull_empty env s props widget persisted Hw Hp Hv) as [Ht _].
  destruct (get_prop_defined_ref _ _ _ _ Hv) as (lp & -> & Hfield); [done |].
  assert (Ha : allocated (heap s) (VRef lp)) by (simpl; by eapply heap_obj_field_dom).
  destruct (beforeProperties_container_run env s props widget Hw Ht Hc He)
    as (persisted' & Hp' & Hrun).
  assert (persisted' = VRef lp) as -> by congruence.
  eexists _, _. split; [exact Hrun |]. simpl.
  rewrite heap_obj_insert_eq, heap_obj_alloc_old by done.
  destruct (heap_obj (heap s) props !! "value") as [x |] eqn:Hx; simpl.
  - by apply overridden_by_lookup_override.
  - rewrite overridden_by_lookup_default by done.
    by apply overridden_by_lookup_override.
Qed.

Lemma beforeProperties_container_before_value_witness :
  let s := Scene.start true false [] 0 in
  getDefaultValue (this s) = "__" ∧
  ∃ l s', beforeProperties Scene.env 1%positive s = (Ok l, s') ∧
          heap_obj (heap s') l !! "value" = Some (VStr "").
Proof.
  intros s. split; [reflexivity |].
  destruct (beforeProperties_container_before_value Scene.env s 1%positive
              (VRef 2%positive) (VRef 4%positive)
              ltac:(vm_compute; reflexivity) ltac:(vm_compute; reflexivity)
              ltac:(vm_compute; reflexivity) eq_refl (or_introl eq_refl))
    as (l & s' & Hrun & Hvalue).
  exists l, s'. split; [exact Hrun |]. rewrite Hvalue. vm_compute. reflexivity.
Defined.

(** * Beyond the claims: the render postprocessor as a whole *)

Lemma primary_node_cases (env : Env) (result : rendered) (s : state) :
  (∃ widgetNode key nodes p,
     primary_node env result s = (Ok (widgetNode, key, nodes), s) ∧
     node_properties widgetNode = Ok (VRef p)) ∨
  primary_node env result s = (Throw TypeError, s).
Proof.
  pose proof (primary_node_state env result s) as Hs.
  pose proof (primary_node_found env result s) as Hfound.
  destruct (primary_node env result s) as [[[[w key] nodes] | []] s']; simpl in *; subst s'.
  - left. destruct (Hfound w key nodes eq_refl) as (p & k & Hp & _).
    by exists w, key, nodes, p.
  - by right.
Qed.

(** Everything about one [afterRender] whose primary node is found: the
    outcome by the focus test, the store by the overlay switch. *)
Lemma afterRender_summary (env : Env) (result : rendered) (s : state)
    (widgetNode : dnode) (key : string) (nodes : list dnode) (p : loc) :
  primary_node env result s = (Ok (widgetNode, key, nodes), s) ->
  node_properties widgetNode = Ok (VRef p) ->
  let widget := field (properties (this s)) "widget" in
  let activeWidgetId := field (properties (this s)) "activeWidgetId" in
  let h3 := if needOverlay (this s)
            then <[fresh_loc (heap s) := <["dimensions" := measure env (VStr key)]>
                                           (<["onMouseUp" := VFun FOnMouseUp]> ∅)]> (heap s)
            else <[p := <["onmouseup" := VFun FOnMouseUp]> (heap_obj (heap s) p)]> (heap s) in
  let front := if needOverlay (this s) then [WNode Overlay (fresh_loc (heap s))] else [] in
  ∃ r s',
    afterRender env result s = (r, s') ∧
    this s' = this (with_key s key) ∧
    calls s' = (calls s ++ if needOverlay (this s) then [DimensionsGet (VStr key)] else [])%list ∧
    (∀ l, heap_obj (heap s') l = heap_obj h3 l) ∧
    match get_prop (heap s) widget "id" with
    | Throw _ => r = Throw TypeError
    | Ok id =>
        if strict_eq id activeWidgetId
        then ∃ t, compensation_node t = true ∧ r = Ok (nodes ++ front ++ [t])%list
        else r = Ok (nodes ++ front ++ [DNull])%list
    end.
Proof.
  intros Hp Hnp widget activeWidgetId h3 front. subst widget activeWidgetId.
  assert (Hmid : ∃ s3,
    afterRender env result s
    = bind (_renderTriggerResizeNode key)
           (fun trigger => ret (nodes ++ front ++ [trigger])%list) s3 ∧
    this s3 = this (with_key s key) ∧
    calls s3 = (calls s ++ if needOverlay (this s) then [DimensionsGet (VStr key)] else [])%list ∧
    heap s3 = h3 ∧
    get_prop (heap s3) (field (properties (this s)) "widget") "id"
    = get_prop (heap s) (field (properties (this s)) "widget") "id").
  { unfold h3, front. destruct (needOverlay (this s)) eqn:Hov.
    - eexists. split.
      { apply (afterRender_overlay_run env result s widgetNode key nodes Hp Hov). }
      repeat split; try done. simpl. by rewrite get_prop_alloc_nofield.
    - eexists. split.
      { apply (afterRender_plain_run env result s widgetNode key nodes p Hp Hnp Hov). }
      repeat split; try done; simpl; [by rewrite app_nil_r |].
      by rewrite get_prop_write_other. }
  destruct Hmid as (s3 & Hrun & Hthis & Hcalls & Hheap & Hid).
  assert (Hprops : properties (this s3) = properties (this s)) by (by rewrite Hthis).
  rewrite Hrun. unfold bind.
  destruct (_renderTriggerResizeNode_cases key s3)
    as [[Hn Hr] | [(id & Hid' & Hne & Hr) | [Hid' Hr]]];
    rewrite Hprops in *; rewrite Hr.
  - exists (Throw TypeError), s3. rewrite <- Hheap.
    repeat split; try done. by rewrite get_prop_throws.
  - eexists _, s3. rewrite <- Hheap. split; [reflexivity |].
    repeat split; try done. rewrite Hid in Hid'.
    rewrite Hid'. unfold strict_eq. by rewrite bool_decide_eq_false_2.
  - eexists _, _. split; [reflexivity |]. simpl.
    repeat split; try done.
    + intros l. rewrite heap_obj_alloc_empty. by rewrite Hheap.
    + rewrite Hid in Hid'.
      rewrite Hid'. unfold strict_eq. rewrite bool_decide_eq_true_2 by done.
      eexists. split; [| reflexivity]. reflexivity.
Qed.

(** X8.  An output with no node to attach to, be it a lone [null], a lone
    [undefined], or a sequence none of whose elements has a defined key
    (the empty sequence included), makes [afterRender] throw a
    [TypeError]; nothing has happened by then: no key recorded, no
    handler attached, no collaborator called. *)
Theorem afterRender_no_primary (env : Env) (result : rendered) (s : state) :
  no_primary (heap s) result ->
  afterRender env result s = (Throw TypeError, s).
Proof.
  destruct result as [node | nodes]; simpl.
  - by intros [-> | ->].
  - apply afterRender_keyless_sequence.
Qed.

Lemma afterRender_no_primary_witness :
  let s := Scene.start false false [] 42 in
  afterRender Scene.env (Single DNull) s = (Throw TypeError, s) ∧
  afterRender Scene.env (Sequence [DNull; Gallery.stray]) s = (Throw TypeError, s).
Proof.
  intros s. split.
  - apply afterRender_no_primary. by left.
  - apply afterRender_no_primary. intros node Hin.
    apply elem_of_cons in Hin as [-> | Hin]; [reflexivity |].
    apply list_elem_of_singleton in Hin as ->. vm_compute. reflexivity.
Defined.

Lemma find_has_key_skip (h3 : state) (pre rest : list dnode) :
  Forall (fun node => stepped_over (heap h3) node = true) pre ->
  find has_key (pre ++ rest) h3 = find has_key rest h3.
Proof.
  induction pre as [| elm pre IH]; intros Hall; [done |].
  apply Forall_cons in Hall as [Helm Hpre].
  simpl. unfold bind. rewrite has_key_run.
  destruct elm as [| | tag p d | c p]; simpl in *; try done.
  - by apply IH.
  - apply negb_true_iff in Helm. rewrite Helm. by apply IH.
  - apply negb_true_iff in Helm. rewrite Helm. by apply IH.
Qed.

(** X9.  In a sequence the primary node is the first element with a
    defined key: [null] elements and nodes without a key before it are
    stepped over, and whatever comes after it, keyed or not, plays no
    part.  Its key, turned into a string, is what [afterRender] records. *)
Theorem afterRender_first_keyed (env : Env) (s : state)
    (pre post : list dnode) (node : dnode) :
  Forall (fun n => stepped_over (heap s) n = true) pre ->
  defined_key (heap s) node = true ->
  ∃ p k,
    node_properties node = Ok (VRef p) ∧
    heap_obj (heap s) p !! "key" = Some k ∧ k ≠ VUndefined ∧
    primary_node env (Sequence (pre ++ node :: post)) s
    = (Ok (node, to_string env k, (pre ++ node :: post)%list), s) ∧
    _key (this (snd (afterRender env (Sequence (pre ++ node :: post)) s))) = to_string env k.
Proof.
  intros Hpre Hkey.
  assert (Hnode : ∃ p k, node_properties node = Ok (VRef p) ∧
                         heap_obj (heap s) p !! "key" = Some k ∧ k ≠ VUndefined).
  { destruct node as [| | tag p d | c p]; simpl in Hkey; try done;
      exists p; destruct (heap_obj (heap s) p !! "key") as [k |] eqn:Hk; simpl in Hkey;
      try done; exists k; repeat split; try done; intros ->; done. }
  destruct Hnode as (p & k & Hp & Hk & Hne). exists p, k.
  assert (Hprim : primary_node env (Sequence (pre ++ node :: post)) s
                  = (Ok (node, to_string env k, (pre ++ node :: post)%list), s)).
  { unfold primary_node, bind. rewrite (find_has_key_skip s pre _ Hpre).
    simpl. unfold bind. rewrite has_key_run.
    destruct node as [| | tag p' d | c p']; simpl in *; try done;
      injection Hp as ->; rewrite Hkey; simpl; unfold lift, read, ret; simpl;
      by rewrite Hk. }
  repeat split; try done.
  destruct (afterRender_outcome env _ s _ _ _ Hprim) as (r & s' & cs & Hrun & Hthis & _).
  rewrite Hrun. simpl. by rewrite Hthis.
Qed.

Lemma afterRender_first_keyed_witness :
  let s := Gallery.start false false [] (Scene.config 0) in
  let first := VNode "div" 15%positive None in
  let second := VNode "p" 9%positive None in
  _key (this (snd (afterRender Scene.env
                     (Sequence ([DNull; Gallery.stray] ++ first :: [second])) s))) = "7".
Proof.
  intros s first second.
  assert (Hpre : Forall (fun n => stepped_over (heap s) n = true) [DNull; Gallery.stray]).
  { repeat constructor. }
  destruct (afterRender_first_keyed Scene.env s [DNull; Gallery.stray] [second] first
              Hpre ltac:(vm_compute; reflexivity))
    as (p & k & Hp & Hk & _ & _ & Hrec).
  rewrite Hrec.
  injection Hp as <-.
  assert (Hk' : heap_obj (heap s) 15%positive !! "key" = Some (VNum 7))
    by (vm_compute; reflexivity).
  assert (k = VNum 7) as -> by congruence.
  vm_compute. reflexivity.
Defined.

(** X10.  An [undefined] element met before any element with a defined
    key makes [afterRender] throw, although such an element is a legal
    [DNode] and a keyed node may follow it: the search steps over [null]
    only.  Nothing has been recorded or attached by then. *)
Theorem afterRender_undefined_element (env : Env) (s : state) (pre post : list dnode) :
  Forall (fun n => stepped_over (heap s) n = true) pre ->
  afterRender env (Sequence (pre ++ DUndefined :: post)) s = (Throw TypeError, s).
Proof.
  intros Hpre. unfold afterRender, bind. simpl. unfold bind.
  rewrite (find_has_key_skip s pre _ Hpre). reflexivity.
Qed.

Lemma afterRender_undefined_element_witness :
  let s := Scene.start false false [] 42 in
  afterRender Scene.env (Sequence [DNull; DUndefined; VNode "div" 9%positive None]) s
  = (Throw TypeError, s).
Proof.
  intros s.
  apply (afterRender_undefined_element Scene.env s [DNull] [VNode "div" 9%positive None]).
  repeat constructor.
Defined.

(** X11.  For an instance whose resolved configuration has no [widget]
    (or a [null] one), as the resolver lets through, every render throws
    a [TypeError]: the compensation step reads [widget.id] unguarded.
    When the output has a primary node the throw comes late: the key is
    already recorded, and without an overlay the handler is already on
    the primary node. *)
Theorem afterRender_without_widget (env : Env) (result : rendered) (s : state) :
  nullish (field (properties (this s)) "widget") = true ->
  ∃ s',
    afterRender env result s = (Throw TypeError, s') ∧
    ∀ widgetNode key nodes p,
      primary_node env result s = (Ok (widgetNode, key, nodes), s) ->
      node_properties widgetNode = Ok (VRef p) ->
      _key (this s') = key ∧
      (needOverlay (this s) = false ->
       heap_obj (heap s') p !! "onmouseup" = Some (VFun FOnMouseUp)).
Proof.
  intros Hn.
  destruct (primary_node_cases env result s)
    as [(w & key & nodes & p & Hp & Hnp) | Hthrow].
  - destruct (afterRender_summary env result s w key nodes p Hp Hnp)
      as (r & s' & Hrun & Hthis & _ & Hheap & Hr).
    rewrite get_prop_throws in Hr by done. subst r.
    exists s'. split; [done |].
    intros w' key' nodes' p' Hp' Hnp'.
    rewrite Hp in Hp'. injection Hp' as <- <- <-.
    rewrite Hnp in Hnp'. injection Hnp' as <-.
    split; [by rewrite Hthis |].
    intros Hov. rewrite Hheap, Hov, heap_obj_insert_eq. apply lookup_insert_eq.
  - exists s. split.
    + unfold afterRender, bind. by rewrite Hthrow.
    + intros w key nodes p Hp. rewrite Hthrow in Hp. discriminate Hp.
Qed.

Lemma afterRender_without_widget_witness :
  let s := Gallery.start false false [] (<["label" := VStr "plain"]> ∅) in
  ∃ s', afterRender Scene.env (Single (VNode "div" 9%positive None)) s
        = (Throw TypeError, s') ∧
        _key (this s') = "root" ∧
        heap_obj (heap s') 9%positive !! "onmouseup" = Some (VFun FOnMouseUp).
Proof.
  intros s.
  destruct (afterRender_without_widget Scene.env (Single (VNode "div" 9%positive None)) s
              eq_refl)
    as (s' & Hrun & Hlate).
  destruct (Hlate (VNode "div" 9%positive None) "root" [VNode "div" 9%positive None]
              9%positive ltac:(vm_compute; reflexivity) eq_refl) as [Hkey Hhandler].
  exists s'. split; [exact Hrun |]. split; [exact Hkey | by apply Hhandler].
Defined.

(** X12.  [afterRender] never calls [onFocus], never touches an event and
    never asks the resize service: whatever the output, the calls it adds
    are none, or, with [needOverlay()], the one measurement of the key
    that goes into the overlay.  Of the instance it changes [_key] only. *)
Theorem afterRender_calls (env : Env) (result : rendered) (s : state) :
  ∃ r s' cs,
    afterRender env result s = (r, s') ∧
    calls s' = (calls s ++ cs)%list ∧
    (cs = [] ∨ (needOverlay (this s) = true ∧ cs = [DimensionsGet (VStr (_key (this s')))])) ∧
    invocations cs = [] ∧
    children (this s') = children (this s) ∧
    properties (this s') = properties (this s) ∧
    isContainer (this s') = isContainer (this s) ∧
    needOverlay (this s') = needOverlay (this s) ∧
    getDefaultValue (this s') = getDefaultValue (this s).
Proof.
  destruct (primary_node_cases env result s)
    as [(w & key & nodes & p & Hp & Hnp) | Hthrow].
  - destruct (afterRender_summary env result s w key nodes p Hp Hnp)
      as (r & s' & Hrun & Hthis & Hcalls & _).
    exists r, s', (if needOverlay (this s) then [DimensionsGet (VStr key)] else []).
    split; [done |]. split; [done |]. rewrite Hthis. simpl.
    repeat split; try done; destruct (needOverlay (this s)); auto.
  - exists (Throw TypeError), s, []. split.
    + unfold afterRender, bind. by rewrite Hthrow.
    + rewrite app_nil_r. repeat split; try done. by left.
Qed.

Lemma get_prop_same_field (h1 h2 : gmap loc (gmap string val)) (name : string) :
  (∀ l, heap_obj h2 l !! name = heap_obj h1 l !! name) ->
  ∀ v, get_prop h2 v name = get_prop h1 v name.
Proof. intros Hsame v. destruct v; simpl; try done. by rewrite Hsame. Qed.

Lemma find_has_key_same_keys (s1 s2 : state) (nodes : list dnode) :
  (∀ l, heap_obj (heap s2) l !! "key" = heap_obj (heap s1) l !! "key") ->
  fst (find has_key nodes s2) = fst (find has_key nodes s1).
Proof.
  intros Hsame. induction nodes as [| elm rest IH]; [done |].
  simpl. unfold bind. rewrite !has_key_run.
  assert (Hdef : defined_key (heap s2) elm = defined_key (heap s1) elm).
  { destruct elm; simpl; try done; by rewrite Hsame. }
  rewrite Hdef. destruct elm; simpl; try done;
    match goal with |- context [if ?b then _ else _] => destruct b end; done.
Qed.

(** The search for the primary node depends on the [key] fields only. *)
Lemma primary_node_same_keys (env : Env) (result : rendered) (s1 s2 : state) :
  (∀ l, heap_obj (heap s2) l !! "key" = heap_obj (heap s1) l !! "key") ->
  fst (primary_node env result s2) = fst (primary_node env result s1).
Proof.
  intros Hsame.
  pose proof (get_prop_same_field (heap s1) (heap s2) "key" Hsame) as Hget.
  destruct result as [node | nodes]; simpl; unfold bind, lift, read, ret.
  - destruct (node_properties node) as [p |]; [| done]. simpl. rewrite Hget.
    by destruct (get_prop (heap s1) p "key").
  - pose proof (find_has_key_same_keys s1 s2 nodes Hsame) as Hfind.
    pose proof (find_has_key_state nodes s1) as Hs1.
    pose proof (find_has_key_state nodes s2) as Hs2.
    destruct (find has_key nodes s1) as [r1 s1']. destruct (find has_key nodes s2) as [r2 s2'].
    simpl in *. subst. destruct r1 as [found |]; [| done].
    destruct (node_properties _) as [p |]; [| done]. simpl. rewrite Hget.
    by destruct (get_prop (heap s1) p "key").
Qed.

(** The store after [afterRender] reads like the store before, except
    for the handler and for the fields of the new overlay properties. *)
Lemma afterRender_store_reads (env : Env) (s : state) (key : string) (p : loc)
    (name : string) (l : loc) :
  name ≠ "onmouseup" -> name ≠ "dimensions" -> name ≠ "onMouseUp" ->
  heap_obj (if needOverlay (this s)
            then <[fresh_loc (heap s) := <["dimensions" := measure env (VStr key)]>
                                           (<["onMouseUp" := VFun FOnMouseUp]> ∅)]> (heap s)
            else <[p := <["onmouseup" := VFun FOnMouseUp]> (heap_obj (heap s) p)]> (heap s))
           l !! name
  = heap_obj (heap s) l !! name.
Proof.
  intros H1 H2 H3. destruct (needOverlay (this s)).
  - destruct (decide (fresh_loc (heap s) = l)) as [<- | Hne].
    + rewrite heap_obj_insert_eq, heap_obj_fresh.
      by rewrite !lookup_insert_ne.
    + by rewrite heap_obj_insert_ne.
  - destruct (decide (p = l)) as [<- | Hne].
    + by rewrite heap_obj_insert_eq, lookup_insert_ne.
    + by rewrite heap_obj_insert_ne.
Qed.

(** X13.  Rendering the same output again, from the state a render left,
    finds the same primary node and records the same key; it ends the
    same way (both throw, or both return outputs of the same length that
    both end, or both do not end, with a compensation node).  Without an
    overlay the second render reads the same in every object: attaching
    the handler again changes nothing. *)
Theorem afterRender_again (env : Env) (result : rendered) (s s' : state)
    (widgetNode : dnode) (key : string) (nodes : list dnode) (r : completion (list dnode)) :
  primary_node env result s = (Ok (widgetNode, key, nodes), s) ->
  afterRender env result s = (r, s') ->
  primary_node env result s' = (Ok (widgetNode, key, nodes), s') ∧
  ∃ r2 s2,
    afterRender env result s' = (r2, s2) ∧
    _key (this s2) = _key (this s') ∧
    match r, r2 with
    | Ok out, Ok out2 =>
        length out2 = length out ∧
        ∃ t t2, last out = Some t ∧ last out2 = Some t2 ∧
                compensation_node t2 = compensation_node t
    | Throw _, Throw _ => True
    | _, _ => False
    end ∧
    (needOverlay (this s) = false -> ∀ l, heap_obj (heap s2) l = heap_obj (heap s') l).
Proof.
  intros Hp Hrun.
  destruct (primary_node_found env result s widgetNode key nodes) as (p & k & Hnp & _).
  { by rewrite Hp. }
  destruct (afterRender_summary env result s widgetNode key nodes p Hp Hnp)
    as (r0 & s0 & Hrun0 & Hthis & _ & Hheap & Hr).
  rewrite Hrun in Hrun0. injection Hrun0 as <- <-.
  assert (Hreads : ∀ name, name ≠ "onmouseup" -> name ≠ "dimensions" -> name ≠ "onMouseUp" ->
                   ∀ l, heap_obj (heap s') l !! name = heap_obj (heap s) l !! name).
  { intros name H1 H2 H3 l. rewrite Hheap. by apply afterRender_store_reads. }
  assert (Hp' : primary_node env result s' = (Ok (widgetNode, key, nodes), s')).
  { pose proof (primary_node_state env result s') as Hs.
    pose proof (primary_node_same_keys env result s s' (Hreads "key" ltac:(done)
                  ltac:(done) ltac:(done))) as Hsame.
    rewrite Hp in Hsame. simpl in Hsame.
    destruct (primary_node env result s') as [r1 s1]. simpl in *. by subst. }
  split; [exact Hp' |].
  destruct (afterRender_summary env result s' widgetNode key nodes p Hp' Hnp)
    as (r2 & s2 & Hrun2 & Hthis2 & _ & Hheap2 & Hr2).
  assert (Hprops : properties (this s') = properties (this s)) by (by rewrite Hthis).
  assert (Hov : needOverlay (this s') = needOverlay (this s)) by (by rewrite Hthis).
  rewrite Hprops, Hov in Hr2.
  rewrite (get_prop_same_field (heap s) (heap s') "id"
             (Hreads "id" ltac:(done) ltac:(done) ltac:(done))) in Hr2.
  exists r2, s2. split; [exact Hrun2 |].
  split. { rewrite Hthis2, Hthis. reflexivity. }
  split.
  - destruct (get_prop (heap s) (field (properties (this s)) "widget") "id") as [id |].
    + destruct (strict_eq id (field (properties (this s)) "activeWidgetId")).
      * destruct Hr as (t & Ht & ->). destruct Hr2 as (t2 & Ht2 & ->).
        split. { rewrite !length_app. simpl. destruct (needOverlay (this s)); reflexivity. }
        exists t, t2. rewrite !app_assoc, !last_snoc. repeat split. congruence.
      * subst r r2.
        split. { rewrite !length_app. simpl. destruct (needOverlay (this s)); reflexivity. }
        exists DNull, DNull. by rewrite !app_assoc, !last_snoc.
    + by subst r r2.
  - intros Hno l. rewrite Hheap2, Hov, Hno.
    destruct (decide (p = l)) as [<- | Hne].
    + rewrite heap_obj_insert_eq, Hheap, Hno, heap_obj_insert_eq.
      by rewrite insert_insert_eq.
    + by rewrite heap_obj_insert_ne.
Qed.

Lemma afterRender_again_witness :
  let s := Scene.start false true [] 42 in
  let node := VNode "div" 9%positive None in
  ∃ r s' r2 s2,
    afterRender Scene.env (Single node) s = (r, s') ∧
    afterRender Scene.env (Single node) s' = (r2, s2) ∧
    _key (this s2) = "root" ∧ _key (this s') = "root".
Proof.
  intros s node.
  destruct (afterRender Scene.env (Single node) s) as [r s'] eqn:Hrun.
  destruct (afterRender_again Scene.env (Single node) s s' node "root" [node] r
              ltac:(vm_compute; reflexivity) Hrun)
    as (_ & r2 & s2 & Hrun2 & Hkey & _).
  exists r, s', r2, s2. split; [reflexivity |]. split; [exact Hrun2 |].
  assert (Hs' : _key (this s') = "root").
  { assert (Hsnd : snd (afterRender Scene.env (Single node) s) = s') by (by rewrite Hrun).
    rewrite <- Hsnd. vm_compute. reflexivity. }
  split; [by rewrite Hkey | exact Hs'].
Defined.

(** * Beyond the claims: the handler and the compensation *)

(** X14.  The mouse-up handler reads [widget.id] only when there is an
    [onFocus] to call: with a falsy [onFocus] it returns normally after
    stopping the event and measuring, whatever the widget is, a missing
    one included.  With an [onFocus] that is set but is not a function, or
    with an [onFocus] and no [widget], it throws a [TypeError] without
    having called anything back; the event has been stopped and the node
    measured by then. *)
Theorem _onMouseUp_throws (env : Env) (s : state) (ev : nat) :
  let onFocus := field (properties (this s)) "onFocus" in
  let widget := field (properties (this s)) "widget" in
  let after := with_calls s [StopImmediatePropagation ev;
                             DimensionsGet (VStr (_key (this s)))] in
  (to_boolean onFocus = false -> _onMouseUp env (Some ev) s = (Ok tt, after)) ∧
  (to_boolean onFocus = true ->
   nullish widget = true ∨ (∀ f, onFocus ≠ VFun f) ->
   _onMouseUp env (Some ev) s = (Throw TypeError, after)).
Proof.
  cbv zeta. rewrite _onMouseUp_run. split.
  - intros Hf. unfold onFocus_if_present. by rewrite Hf.
  - intros Ht Hbad.
    destruct (onFocus_if_present_cases (field (properties (this s)) "onFocus")
                (measure env (VStr (_key (this s))))
                (field (properties (this s)) "widget")
                (with_calls s [StopImmediatePropagation ev;
                               DimensionsGet (VStr (_key (this s)))]))
      as [[Hf _] | [(_ & _ & Hr) | [(_ & _ & _ & Hr) | (n & id & Hf & Hid & _)]]].
    + congruence.
    + exact Hr.
    + exact Hr.
    + destruct Hbad as [Hn | Hnf].
      * simpl in Hid. rewrite get_prop_throws in Hid by done. discriminate Hid.
      * by destruct (Hnf (FExternal n)).
Qed.

Lemma _onMouseUp_throws_witness :
  let quiet := Gallery.start false false [] (<["label" := VStr "plain"]> ∅) in
  let loud := Gallery.start false false [] (<["onFocus" := Scene.onFocus]> ∅) in
  _onMouseUp Scene.env (Some 0%nat) quiet
  = (Ok tt, with_calls quiet [StopImmediatePropagation 0; DimensionsGet (VStr "")]) ∧
  _onMouseUp Scene.env (Some 0%nat) loud
  = (Throw TypeError, with_calls loud [StopImmediatePropagation 0; DimensionsGet (VStr "")]).
Proof.
  intros quiet loud. split.
  - apply (proj1 (_onMouseUp_throws Scene.env quiet 0%nat)). reflexivity.
  - apply (proj2 (_onMouseUp_throws Scene.env loud 0%nat)); [reflexivity | by left].
Defined.

(** X15.  The deferred function of a compensation node tests the focus
    again when it runs: if the id of the widget it was made with no
    longer equals the [activeWidgetId] it was made with, it measures
    nothing, calls nothing and still returns the reserved key. *)
Theorem run_deferred_focus_lost (env : Env) (s : state)
    (widget activeWidgetId onFocus id : val) (key : string) (inserted : bool) :
  get_prop (heap s) widget "id" = Ok id ->
  id ≠ activeWidgetId ->
  run_deferred env (TriggerResize widget activeWidgetId onFocus key) inserted s
  = (Ok (<["key" := VStr "__triggerResize__"]> ∅), s).
Proof.
  intros Hid Hne. rewrite (run_deferred_run env _ _ _ _ _ _ _ Hid).
  unfold strict_eq. by rewrite bool_decide_eq_false_2.
Qed.

Lemma run_deferred_focus_lost_witness :
  let s := Gallery.start false false [] (Scene.config 42) in
  run_deferred Scene.env
    (TriggerResize (VRef 11%positive) (VNum 42) Scene.onFocus "root") true s
  = (Ok (<["key" := VStr "__triggerResize__"]> ∅), s).
Proof.
  intros s.
  apply (run_deferred_focus_lost Scene.env s (VRef 11%positive) (VNum 42) Scene.onFocus
           (VStr "w7") "root" true).
  - vm_compute. reflexivity.
  - discriminate.
Defined.

Lemma onFocus_if_present_callback (n : nat) (dimensions widget id : val) (s : state) :
  get_prop (heap s) widget "id" = Ok id ->
  onFocus_if_present (VFun (FExternal n)) dimensions widget s
  = (Ok tt, with_calls s [Invoke (FExternal n) (focus_payload dimensions id)]).
Proof.
  intros Hid. unfold onFocus_if_present, bind, read. cbn [to_boolean].
  rewrite Hid. reflexivity.
Qed.

(** X16.  When the deferred function does refocus, the object it hands
    to [onFocus] has two fields: [activeWidgetDimensions], the geometry
    measured for the key it was made with, and [activeWidgetId], the id
    read from the widget of the instance's configuration at the time it
    runs, not from the widget it was made with and not the
    [activeWidgetId] handed down to [_focus]. *)
Theorem run_deferred_reports_current_widget (env : Env) (s : state)
    (widget activeWidgetId id : val) (n : nat) (key : string) (inserted : bool) :
  get_prop (heap s) widget "id" = Ok activeWidgetId ->
  get_prop (heap s) (field (properties (this s)) "widget") "id" = Ok id ->
  ∃ payload,
    run_deferred env (TriggerResize widget activeWidgetId (VFun (FExternal n)) key) inserted s
    = (Ok (<["key" := VStr "__triggerResize__"]> ∅),
       with_calls s [DimensionsGet (VStr key); ResizeGet (VStr key);
                     Invoke (FExternal n) payload]) ∧
    payload !! "activeWidgetDimensions" = Some (measure env (VStr key)) ∧
    payload !! "activeWidgetId" = Some id ∧
    ∀ name, name ≠ "activeWidgetDimensions" -> name ≠ "activeWidgetId" ->
            payload !! name = None.
Proof.
  intros Hfocus Hid. exists (focus_payload (measure env (VStr key)) id).
  split; [| apply focus_payload_fields].
  rewrite (run_deferred_run env _ _ _ _ _ _ _ Hfocus).
  unfold strict_eq. rewrite bool_decide_eq_true_2 by done.
  unfold bind. rewrite (onFocus_if_present_callback n _ _ id) by done.
  unfold ret. by rewrite with_calls_app.
Qed.

Lemma run_deferred_reports_current_widget_witness :
  let s := Gallery.start false false [] (Scene.config 42) in
  ∃ s' payload,
    run_deferred Scene.env
      (TriggerResize (VRef 11%positive) (VStr "w7") Scene.onFocus "root") true s
    = (Ok (<["key" := VStr "__triggerResize__"]> ∅), s') ∧
    invocations (calls s') = [Invoke (FExternal 0) payload] ∧
    payload !! "activeWidgetDimensions" = Some (VStr "rect of root") ∧
    payload !! "activeWidgetId" = Some (VNum 42).
Proof.
  intros s.
  destruct (run_deferred_reports_current_widget Scene.env s (VRef 11%positive) (VStr "w7")
              (VNum 42) 0%nat "root" true
              ltac:(vm_compute; reflexivity) ltac:(vm_compute; reflexivity))
    as (payload & Hrun & Hdims & Hid & _).
  eexists _, payload. split; [exact Hrun |].
  split; [reflexivity |]. split; [exact Hdims | exact Hid].
Defined.

(** X17.  The focus test is strict equality without conversion: a widget
    whose id is a number is never focused by an [activeWidgetId] that is
    a string, whatever the digits; no compensation node is made and the
    state is untouched. *)
Theorem _renderTriggerResizeNode_no_conversion (s : state) (key : string) (n : Z) (a : string) :
  get_prop (heap s) (field (properties (this s)) "widget") "id" = Ok (VNum n) ->
  field (properties (this s)) "activeWidgetId" = VStr a ->
  _renderTriggerResizeNode key s = (Ok DNull, s).
Proof.
  intros Hid Ha.
  destruct (_renderTriggerResizeNode_cases key s)
    as [[Hn _] | [(id & _ & _ & Hr) | [Hid' _]]].
  - rewrite get_prop_throws in Hid by done. discriminate Hid.
  - exact Hr.
  - rewrite Hid, Ha in Hid'. discriminate Hid'.
Qed.

Lemma _renderTriggerResizeNode_no_conversion_witness :
  let s := Gallery.start false false []
             (<["widget" := VRef 2%positive]> (<["activeWidgetId" := VStr "42"]> ∅)) in
  _renderTriggerResizeNode "root" s = (Ok DNull, s).
Proof.
  intros s.
  apply (_renderTriggerResizeNode_no_conversion s "root" 42 "42").
  - vm_compute. reflexivity.
  - reflexivity.
Defined.

(** X18.  A widget without an [id], rendered with a configuration
    without an [activeWidgetId], passes the focus test, both sides being
    [undefined]: the compensation node is made although nothing is
    selected. *)
Theorem _renderTriggerResizeNode_undefined_ids (s : state) (key : string) (lw : loc) :
  properties (this s) !! "widget" = Some (VRef lw) ->
  heap_obj (heap s) lw !! "id" = None ->
  properties (this s) !! "activeWidgetId" = None ->
  ∃ p d s', _renderTriggerResizeNode key s = (Ok (VNode "span" p (Some d)), s') ∧
            compensation_node (VNode "span" p (Some d)) = true.
Proof.
  intros Hw Hid Ha.
  destruct (_renderTriggerResizeNode_cases key s)
    as [[Hn _] | [(id & Hid' & Hne & _) | [_ Hr]]].
  - unfold field in Hn. rewrite Hw in Hn. discriminate Hn.
  - unfold field in Hid', Hne. rewrite Hw in Hid'. simpl in Hid'.
    rewrite Hid in Hid'. rewrite Ha in Hne. simpl in *. congruence.
  - eexists _, _, _. split; [exact Hr | reflexivity].
Qed.

Lemma _renderTriggerResizeNode_undefined_ids_witness :
  let s := Gallery.start false false [] (<["widget" := VRef 16%positive]> ∅) in
  ∃ p d s', _renderTriggerResizeNode "root" s = (Ok (VNode "span" p (Some d)), s').
Proof.
  intros s.
  destruct (_renderTriggerResizeNode_undefined_ids s "root" 16%positive
              eq_refl ltac:(vm_compute; reflexivity) eq_refl)
    as (p & d & s' & Hrun & _).
  by exists p, d, s'.
Defined.

(** X19.  Render, then mouse-up: after a render that found its primary
    node, for an instance with an editor callback as [onFocus] and a
    widget whose id can be read, the handler stops the event, measures
    the node of the key this render recorded and calls [onFocus] once with
    an object whose [activeWidgetDimensions] is that geometry, whose
    [activeWidgetId] is the widget's id, and that has no other field;
    attaching the handler or making the overlay has not changed what the
    id reads as. *)
Theorem render_then_mouse_up (env : Env) (result : rendered) (s : state)
    (widgetNode : dnode) (key : string) (nodes : list dnode) (n ev : nat) (id : val) :
  primary_node env result s = (Ok (widgetNode, key, nodes), s) ->
  field (properties (this s)) "onFocus" = VFun (FExternal n) ->
  get_prop (heap s) (field (properties (this s)) "widget") "id" = Ok id ->
  ∃ out s' payload,
    afterRender env result s = (Ok out, s') ∧
    _onMouseUp env (Some ev) s'
    = (Ok tt,
       with_calls s' [StopImmediatePropagation ev; DimensionsGet (VStr key);
                      Invoke (FExternal n) payload]) ∧
    payload !! "activeWidgetDimensions" = Some (measure env (VStr key)) ∧
    payload !! "activeWidgetId" = Some id ∧
    ∀ name, name ≠ "activeWidgetDimensions" -> name ≠ "activeWidgetId" ->
            payload !! name = None.
Proof.
  intros Hp Hf Hid.
  destruct (primary_node_found env result s widgetNode key nodes) as (p & k & Hnp & _).
  { by rewrite Hp. }
  destruct (afterRender_summary env result s widgetNode key nodes p Hp Hnp)
    as (r & s' & Hrun & Hthis & _ & Hheap & Hr).
  rewrite Hid in Hr.
  assert (Hok : ∃ out, r = Ok out).
  { destruct (strict_eq id _); [destruct Hr as (t & _ & ->) | subst r]; eauto. }
  destruct Hok as [out ->]. exists out, s', (focus_payload (measure env (VStr key)) id).
  split; [exact Hrun |]. split; [| apply focus_payload_fields].
  assert (Hid' : get_prop (heap s') (field (properties (this s)) "widget") "id" = Ok id).
  { rewrite <- Hid. apply get_prop_same_field. intros l. rewrite Hheap.
    by apply afterRender_store_reads. }
  rewrite _onMouseUp_run, Hthis. cbn [this with_key properties _key].
  rewrite Hf, (onFocus_if_present_callback n _ _ id) by done.
  by rewrite with_calls_app.
Qed.

Lemma render_then_mouse_up_witness :
  let s := Scene.start false true [] 0 in
  ∃ out s' s'' payload,
    afterRender Scene.env (Single (VNode "div" 9%positive None)) s = (Ok out, s') ∧
    _onMouseUp Scene.env (Some 3%nat) s' = (Ok tt, s'') ∧
    invocations (calls s'') = [Invoke (FExternal 0) payload] ∧
    payload !! "activeWidgetDimensions" = Some (VStr "rect of root") ∧
    payload !! "activeWidgetId" = Some (VNum 42).
Proof.
  intros s.
  destruct (render_then_mouse_up Scene.env (Single (VNode "div" 9%positive None)) s
              (VNode "div" 9%positive None) "root" [VNode "div" 9%positive None]
              0%nat 3%nat (VNum 42)
              ltac:(vm_compute; reflexivity) eq_refl ltac:(vm_compute; reflexivity))
    as (out & s' & payload & Hrun & Hup & Hdims & Hid & _).
  eexists out, s', _, payload. split; [exact Hrun |]. split; [exact Hup |].
  split; [| split; [exact Hdims | exact Hid]].
  assert (Hcalls : invocations (calls s') = []).
  { assert (Hsnd : snd (afterRender Scene.env (Single (VNode "div" 9%positive None)) s) = s')
      by (by rewrite Hrun).
    rewrite <- Hsnd. vm_compute. reflexivity. }
  unfold with_calls, invocations in *. cbn [calls].
  rewrite List.filter_app, Hcalls. reflexivity.
Defined.
